(** * Request handlers of the TensorRT-LLM monolith worker and of the
      vLLM/NIXL prefill worker

    Shallow embedding of

    - [examples/python_rs/llm/tensorrt_llm/monolith/worker.py]
      ([TensorrtLLMEngine.generate_chat], [TensorrtLLMEngine.generate_completion]);
    - [examples/python_rs/llm/vllm_nixl/prefill_worker.py]
      ([RequestHandler.__init__], [RequestHandler.generate] and the
      engine arguments set in the [__main__] block).

    Both handlers are Python async generators that call external
    collaborators (the engine, the tokenizer, the response processors, the
    metadata store).  A handler body is embedded as a computation in a state
    and exception monad over a [world]: the handler object's own fields, the
    trace of collaborator calls made so far, the values yielded so far, and
    the behaviour of the consumer of the generator.  Collaborators are
    oracles: each sees the trace of calls made before it and either returns
    a value or raises.  Logging and [print] are not modelled. *)

From Stdlib Require Import ZArith List String Bool Lia.
From stdpp Require Import base gmap sets list strings.

Set Warnings "-register-all".
Local Open Scope Z_scope.

(** ** Python exceptions and results *)

Module Py.

(** The exception classes the two files can meet.  [UserError name] is any
    other class derived from [Exception], identified by its name. *)
Inductive exn_class : Type :=
| BaseException
| Exception
| GeneratorExit
| CancelledError
| KeyboardInterrupt
| RuntimeError
| CppExecutorError
| IndexError
| TypeError
| AttributeError
| ValueError
| UserError (name : string).

(** The direct base class. [CppExecutorError] derives from [RuntimeError];
    [GeneratorExit], [CancelledError] and [KeyboardInterrupt] derive from
    [BaseException] directly and so escape [except Exception]. *)
Definition base (c : exn_class) : option exn_class :=
  match c with
  | BaseException => None
  | Exception | GeneratorExit | CancelledError | KeyboardInterrupt => Some BaseException
  | CppExecutorError => Some RuntimeError
  | RuntimeError | IndexError | TypeError | AttributeError | ValueError
  | UserError _ => Some Exception
  end.

Definition same_class (c d : exn_class) : bool :=
  match c, d with
  | BaseException, BaseException | Exception, Exception
  | GeneratorExit, GeneratorExit | CancelledError, CancelledError
  | KeyboardInterrupt, KeyboardInterrupt | RuntimeError, RuntimeError
  | CppExecutorError, CppExecutorError | IndexError, IndexError
  | TypeError, TypeError | AttributeError, AttributeError
  | ValueError, ValueError => true
  | UserError a, UserError b => String.eqb a b
  | _, _ => false
  end.

(** [issubclass c d], walking up the base classes (depth is at most 3). *)
Fixpoint issubclass_fuel (fuel : nat) (c d : exn_class) : bool :=
  same_class c d ||
  match fuel with
  | O => false
  | S fuel' =>
      match base c with
      | Some b => issubclass_fuel fuel' b d
      | None => false
      end
  end.

Definition issubclass : exn_class -> exn_class -> bool := issubclass_fuel 3.

(** An exception object: its class, its message ([str(e)]) and its
    [__context__], the exception that was being handled when it was
    raised. *)
Inductive exn : Type :=
  Exn { exn_cls : exn_class; exn_msg : string; exn_context : option exn }.

Definition isinstance (e : exn) (c : exn_class) : bool := issubclass (exn_cls e) c.

Definition str (e : exn) : string := exn_msg e.

(** [raise C(msg)] inside [except ... as e]: Python records [e] as the
    [__context__] of the new exception. *)
Definition with_context (handled : exn) (e : exn) : exn :=
  Exn (exn_cls e) (exn_msg e) (Some handled).

Inductive result (A : Type) : Type :=
| Ok (a : A)
| Raise (e : exn).
Arguments Ok {A} a.
Arguments Raise {A} e.

Definition is_raise {A} (r : result A) : bool :=
  match r with Ok _ => false | Raise _ => true end.

(** Dynamically typed values that occur in a completion prompt. *)
Inductive pyval : Type :=
| PyStr (s : string)
| PyInt (z : Z)
| PyList (l : list pyval).

Definition is_int (v : pyval) : bool :=
  match v with PyInt _ => true | _ => false end.

(** An asynchronous iterator handed back by a collaborator: the items it
    produces, after which it is exhausted ([None]) or raises. *)
Record async_iter (A : Type) : Type :=
  AsyncIter { items : list A; ending : option exn }.
Arguments AsyncIter {A} items ending.
Arguments items {A} _.
Arguments ending {A} _.

End Py.

Import Py.

(** ** Async generator bodies *)

Module Gen.

Section Gen.
Context {S E Y : Type}.

(** [self]: the fields of the handler object; [trace]: the collaborator
    calls made so far, oldest first; [yielded]: the values handed to the
    consumer so far; [consumer]: [None] when the consumer drains the
    generator, [Some k] when it calls [aclose()] once it has received
    [k + 1] values, which throws [GeneratorExit] into the generator at
    the [yield] it is suspended on. *)
Record world : Type :=
  World { self : S; trace : list E; yielded : list Y; consumer : option nat }.

Definition M (A : Type) : Type := world -> world * result A.

Definition ret {A} (a : A) : M A := fun w => (w, Ok a).

Definition raise {A} (e : exn) : M A := fun w => (w, Raise e).

Definition bind {A B} (m : M A) (f : A -> M B) : M B :=
  fun w =>
    match m w with
    | (w', Ok a) => f a w'
    | (w', Raise e) => (w', Raise e)
    end.

(** A pure computation that may raise. *)
Definition lift {A} (r : result A) : M A := fun w => (w, r).

Definition get_self : M S := fun w => (w, Ok (self w)).

Definition modify_self (f : S -> S) : M unit :=
  fun w => (World (f (self w)) (trace w) (yielded w) (consumer w), Ok tt).

(** A call to a collaborator: the oracle sees the calls made so far, the
    call is recorded whether it returns or raises. *)
Definition call {A} (oracle : list E -> result A) (ev : E) : M A :=
  fun w => (World (self w) (trace w ++ [ev]) (yielded w) (consumer w),
            oracle (trace w)).

Definition closes_at (c : option nat) (received : nat) : bool :=
  match c with
  | None => false
  | Some k => (k <? received)%nat
  end.

Definition generator_exit : exn := Exn GeneratorExit EmptyString None.

Definition yield_ (y : Y) : M unit :=
  fun w =>
    let out := yielded w ++ [y] in
    let w' := World (self w) (trace w) out (consumer w) in
    if closes_at (consumer w) (length out)
    then (w', Raise generator_exit)
    else (w', Ok tt).

(** [try: body except C1: h1 except C2 as e: h2 ...]: the first clause
    whose class the exception is an instance of handles it; an exception
    raised by the handler gets the handled one as context; with no
    matching clause the exception propagates. *)
Fixpoint find_clause {A} (clauses : list (exn_class * (exn -> M A))) (e : exn)
  : option (exn -> M A) :=
  match clauses with
  | [] => None
  | (c, h) :: rest => if isinstance e c then Some h else find_clause rest e
  end.

Definition try_except {A} (body : M A) (clauses : list (exn_class * (exn -> M A))) : M A :=
  fun w =>
    match body w with
    | (w', Ok a) => (w', Ok a)
    | (w', Raise e) =>
        match find_clause clauses e with
        | None => (w', Raise e)
        | Some h =>
            match h e w' with
            | (w'', Ok a) => (w'', Ok a)
            | (w'', Raise e') => (w'', Raise (with_context e e'))
            end
        end
    end.

(** A loop over a list that rebinds a local variable on each round
    ([acc.extend(...)], [acc.append(...)], a list comprehension). *)
Fixpoint fold_m {A B} (f : B -> A -> M B) (l : list A) (acc : B) : M B :=
  match l with
  | [] => ret acc
  | x :: rest => bind (f acc x) (fun acc' => fold_m f rest acc')
  end.

(** [for x in l: body] over a list. *)
Fixpoint for_each {A} (l : list A) (body : A -> M unit) : M unit :=
  match l with
  | [] => ret tt
  | x :: rest => bind (body x) (fun _ => for_each rest body)
  end.

(** [async for x in s: body] over a collaborator's iterator. *)
Definition async_for {A} (s : async_iter A) (body : A -> M unit) : M unit :=
  bind (for_each (items s) body)
       (fun _ => match ending s with
                 | None => ret tt
                 | Some e => raise e
                 end).

(** A computation that does not touch the handler object; it may call
    collaborators and yield. *)
Definition keeps_self {A} (m : M A) : Prop :=
  forall w w' r, m w = (w', r) -> self w' = self w.

(** A computation that only calls collaborators. *)
Definition only_calls {A} (m : M A) : Prop :=
  forall w w' r, m w = (w', r) ->
    exists new, w' = World (self w) (trace w ++ new) (yielded w) (consumer w).

(** Start the generator on a fresh run: nothing yielded yet. *)
Definition run {A} (m : M A) (c : option nat) (s : S) (tr : list E) : world * result A :=
  m (World s tr [] c).

(** A computation whose collaborator calls all satisfy [P]. *)
Definition emits (P : E -> bool) {A} (m : M A) : Prop :=
  forall w w' r, m w = (w', r) ->
    exists new, trace w' = trace w ++ new /\ forallb P new = true.

(** Requests handled one after another by the same handler object: each
    call of the handler is a new generator with its own consumer, the
    handler object and the collaborators' history carry over.  (Requests
    whose handling interleaves are not covered by this.) *)
Fixpoint serve {A} (handler : A -> M unit) (requests : list (A * option nat))
    (s : S) (tr : list E) : S * list E * list (result unit) :=
  match requests with
  | [] => (s, tr, [])
  | (request, c) :: rest =>
      match run (handler request) c s tr with
      | (w, r) =>
          match serve handler rest (self w) (trace w) with
          | (s', tr', rs) => (s', tr', r :: rs)
          end
      end
  end.

End Gen.

Arguments world : clear implicits.
Arguments M : clear implicits.

End Gen.

Import Gen.

Declare Scope gen_scope.
Delimit Scope gen_scope with gen.
Notation "x <- m ;; k" := (bind m (fun x => k))
  (at level 100, m at next level, right associativity) : gen_scope.
Notation "m ;;; k" := (bind m (fun _ => k))
  (at level 100, right associativity) : gen_scope.

Local Open Scope gen_scope.

(** ** [tensorrt_llm/monolith/worker.py] *)

Module Trtllm.

Inductive signal : Type := SIGINT.

(** [CompletionRequest.prompt] is declared as a string or a list; what the
    list holds is only found out at run time. *)
Inductive prompt_field : Type :=
| PromptStr (s : string)
| PromptList (l : list pyval).

Definition index_error : exn := Exn IndexError "list index out of range" None.

(** Lines 118-123: [request.prompt[0]] is evaluated whenever the prompt is
    a list, and raises on the empty list. *)
Definition normalize_prompt (p : prompt_field) : result (list pyval) :=
  match p with
  | PromptStr s => Ok [PyStr s]
  | PromptList l =>
      match l with
      | [] => Raise index_error
      | first :: _ => if is_int first then Ok [PyList l] else Ok l
      end
  end.

Section Handlers.
(** Objects the handlers only pass around. *)
Context {Message ConvEntry Tool ToolDict TemplateArgs Fields : Type}.
Context {SamplingParams DisaggregatedParams Promise MergedGenerator : Type}.
Context {ChatResponse CompletionChunk Json : Type}.

Record nvChatCompletionRequest : Type :=
  { messages : list Message;
    tools : option (list Tool);
    chat_stream : bool;
    (* add_generation_prompt, documents, chat_template, chat_template_kwargs *)
    template_args : TemplateArgs;
    chat_fields : Fields }.

Record CompletionRequest : Type :=
  { prompt : prompt_field;
    stream : bool;
    n : option Z;
    fields : Fields }.

Inductive event : Type :=
| EvUuid4
| EvParseChatMessageContent (message : Message)
| EvModelDump (tool : Tool)
| EvApplyChatTemplate (conversation : list ConvEntry)
    (tool_dicts : option (list ToolDict)) (args : TemplateArgs)
| EvToSamplingParams
| EvToLlmDisaggregatedParams
| EvGenerateAsync (prompt : pyval) (sampling_params : SamplingParams)
    (streaming : bool) (disaggregated_params : option DisaggregatedParams)
| EvStreamResponse (request_id : string) (conversation : list ConvEntry)
    (promise : Promise)
| EvMergePromises (promises : list Promise)
| EvCreateCompletionGenerator (generator : MergedGenerator) (num_choices : Z)
| EvJsonLoads (response : CompletionChunk)
| EvRaiseSignal (signum : signal).

(** [self._llm_engine], when it is not [None]. *)
Record LlmEngine : Type :=
  { generate_async :
      list event -> pyval -> SamplingParams -> bool ->
      option DisaggregatedParams -> result Promise }.

Record TensorrtLLMEngine : Type :=
  { _llm_engine : option LlmEngine;
    _ongoing_request_count : Z }.

(** Everything else the handlers call. *)
Record collaborators : Type :=
  { uuid4 : list event -> string;
    parse_chat_message_content : list event -> Message -> result (list ConvEntry);
    model_dump : list event -> Tool -> result ToolDict;
    apply_chat_template :
      list event -> list ConvEntry -> option (list ToolDict) -> TemplateArgs ->
      result string;
    chat_to_sampling_params : list event -> nvChatCompletionRequest -> result SamplingParams;
    stream_response :
      list event -> nvChatCompletionRequest -> string -> list ConvEntry -> Promise ->
      result (async_iter ChatResponse);
    to_sampling_params : list event -> CompletionRequest -> result SamplingParams;
    to_llm_disaggregated_params :
      list event -> CompletionRequest -> result DisaggregatedParams;
    merge_promises : list event -> list Promise -> result MergedGenerator;
    create_completion_generator :
      list event -> CompletionRequest -> MergedGenerator -> Z ->
      result (async_iter CompletionChunk);
    json_loads : CompletionChunk -> result Json;
    (* signal.raise_signal: the handler installed for the signal runs before
       the call returns, and what it raises is raised by the call
       (KeyboardInterrupt with Python's default SIGINT handler) *)
    raise_signal : list event -> signal -> result unit }.

Variable env : collaborators.

Definition engine_not_initialized : exn :=
  Exn RuntimeError "Engine not initialized" None.

Definition non_streaming_not_supported : exn :=
  Exn RuntimeError "Non-streaming is not supported" None.

(** [RuntimeError("Failed to generate: " + str(e))], as constructed. *)
Definition failed_to_generate (e : exn) : exn :=
  Exn RuntimeError (String.append "Failed to generate: " (str e)) None.

Definition none_has_no_generate_async : exn :=
  Exn AttributeError "'NoneType' object has no attribute 'generate_async'" None.

Definition set_count (f : Z -> Z) (s : TensorrtLLMEngine) : TensorrtLLMEngine :=
  {| _llm_engine := _llm_engine s;
     _ongoing_request_count := f (_ongoing_request_count s) |}.

(** *** [generate_chat] *)

Local Abbreviation ChatM := (M TensorrtLLMEngine event ChatResponse).

(** Lines 69-86: conversation, tool dictionaries, prompt and sampling
    parameters. *)
Definition build_prompt (request : nvChatCompletionRequest)
  : ChatM (list ConvEntry * string * SamplingParams) :=
  conversation <-
    fold_m (fun conversation message =>
              parsed <- call (fun tr => parse_chat_message_content env tr message)
                             (EvParseChatMessageContent message) ;;
              ret (conversation ++ parsed))
           (messages request) [] ;;
  tool_dicts <-
    match tools request with
    | None => ret None
    | Some ts =>
        ds <- fold_m (fun ds tool =>
                        d <- call (fun tr => model_dump env tr tool) (EvModelDump tool) ;;
                        ret (ds ++ [d]))
                     ts [] ;;
        ret (Some ds)
    end ;;
  prompt <- call (fun tr => apply_chat_template env tr conversation tool_dicts
                              (template_args request))
                 (EvApplyChatTemplate conversation tool_dicts (template_args request)) ;;
  sampling_params <- call (fun tr => chat_to_sampling_params env tr request)
                          EvToSamplingParams ;;
  ret (conversation, prompt, sampling_params).

(** Lines 88-103: the engine call and what follows it. *)
Definition invoke_and_stream (request : nvChatCompletionRequest) (request_id : string)
    (conversation : list ConvEntry) (prompt : string) (sampling_params : SamplingParams)
  : ChatM unit :=
  self <- get_self ;;
  match _llm_engine self with
  | Some engine =>
      promise <- call (fun tr => generate_async engine tr (PyStr prompt) sampling_params
                                   (chat_stream request) None)
                      (EvGenerateAsync (PyStr prompt) sampling_params
                         (chat_stream request) None) ;;
      if chat_stream request then
        response_generator <-
          call (fun tr => stream_response env tr request request_id conversation promise)
               (EvStreamResponse request_id conversation promise) ;;
        async_for response_generator (fun response => yield_ response)
      else
        raise non_streaming_not_supported
  | None => ret tt
  end.

(** Lines 69-103, the body of the [try]. *)
Definition generate_chat_body (request : nvChatCompletionRequest) (request_id : string)
  : ChatM unit :=
  built <- build_prompt request ;;
  match built with
  | (conversation, prompt, sampling_params) =>
      invoke_and_stream request request_id conversation prompt sampling_params
  end.

Definition generate_chat (request : nvChatCompletionRequest) : ChatM unit :=
  self <- get_self ;;
  match _llm_engine self with
  | None => raise engine_not_initialized
  | Some _ =>
      request_id <- call (fun tr => Ok (uuid4 env tr)) EvUuid4 ;;
      try_except (generate_chat_body request request_id)
        [ (CppExecutorError,
           fun _ => call (fun tr => raise_signal env tr SIGINT) (EvRaiseSignal SIGINT));
          (Exception, fun e => raise (failed_to_generate e)) ]
  end.

(** *** [generate_completion] *)

Local Abbreviation CompletionM := (M TensorrtLLMEngine event Json).

Definition invoke_event (request : CompletionRequest)
    (sampling_params : SamplingParams) (disaggregated_params : DisaggregatedParams)
    (prompt : pyval) : event :=
  EvGenerateAsync prompt sampling_params (stream request) (Some disaggregated_params).

(** Lines 130-136, one round of the loop. *)
Definition invoke_step (request : CompletionRequest)
    (sampling_params : SamplingParams) (disaggregated_params : DisaggregatedParams)
    (promises : list Promise) (prompt : pyval) : CompletionM (list Promise) :=
  self <- get_self ;;
  match _llm_engine self with
  | None => raise none_has_no_generate_async
  | Some engine =>
      promise <-
        call (fun tr => generate_async engine tr prompt sampling_params
                          (stream request) (Some disaggregated_params))
             (invoke_event request sampling_params disaggregated_params prompt) ;;
      ret (promises ++ [promise])
  end.

(** Lines 125-136. *)
Definition invoke_all (request : CompletionRequest) (prompts : list pyval)
    (sampling_params : SamplingParams) (disaggregated_params : DisaggregatedParams)
  : CompletionM (list Promise) :=
  fold_m (invoke_step request sampling_params disaggregated_params) prompts [].

(** Line 139. *)
Definition num_choices (prompts : list pyval) (request : CompletionRequest) : Z :=
  match n request with
  | None => Z.of_nat (length prompts)
  | Some k => Z.of_nat (length prompts) * k
  end.

(** Line 144. *)
Definition send_chunk (response : CompletionChunk) : CompletionM unit :=
  v <- call (fun _ => json_loads env response) (EvJsonLoads response) ;;
  yield_ v.

Definition generate_completion (request : CompletionRequest) : CompletionM unit :=
  self <- get_self ;;
  match _llm_engine self with
  | None => raise engine_not_initialized
  | Some _ =>
      modify_self (set_count (fun c => c + 1)) ;;;
      prompts <- lift (normalize_prompt (prompt request)) ;;
      sampling_params <- call (fun tr => to_sampling_params env tr request)
                              EvToSamplingParams ;;
      disaggregated_params <-
        call (fun tr => to_llm_disaggregated_params env tr request)
             EvToLlmDisaggregatedParams ;;
      promises <- invoke_all request prompts sampling_params disaggregated_params ;;
      generator <- call (fun tr => merge_promises env tr promises)
                        (EvMergePromises promises) ;;
      response_generator <-
        call (fun tr => create_completion_generator env tr request generator
                          (num_choices prompts request))
             (EvCreateCompletionGenerator generator (num_choices prompts request)) ;;
      async_for response_generator send_chunk ;;;
      modify_self (set_count (fun c => c - 1))
  end.

(** *** Reading a trace *)

(** The [num_choices] of the calls to [create_completion_generator]. *)
Definition created_with (tr : list event) : list Z :=
  flat_map (fun ev => match ev with
                      | EvCreateCompletionGenerator _ k => [k]
                      | _ => []
                      end) tr.

(** Deriving the parameters of a request and calling the engine. *)
Definition derives_or_invokes (ev : event) : bool :=
  match ev with
  | EvToSamplingParams | EvToLlmDisaggregatedParams | EvGenerateAsync _ _ _ _ => true
  | _ => false
  end.

(** The engine raises [e] on one of the calls of a request. *)
Definition engine_raises (engine : LlmEngine) (request : CompletionRequest)
    (sampling_params : SamplingParams) (disaggregated_params : DisaggregatedParams)
    (e : exn) : Prop :=
  exists tr prompt,
    generate_async engine tr prompt sampling_params (stream request)
      (Some disaggregated_params) = Raise e.

(** [e] is raised by one of the collaborators called before the response
    generator is created. *)
Definition raised_before_creation (engine : LlmEngine) (request : CompletionRequest)
    (e : exn) : Prop :=
  (exists tr, to_sampling_params env tr request = Raise e) \/
  (exists tr, to_llm_disaggregated_params env tr request = Raise e) \/
  (exists sp dp, engine_raises engine request sp dp e) \/
  (exists tr promises, merge_promises env tr promises = Raise e).



End Handlers.

End Trtllm.

(** ** The metadata store *)

(** Modelled from the spec: [NixlMetadataStore] ([common.py]) is not part of
    the sources at hand.  Section 4.1: [put] publishes the metadata of an
    engine identifier, the last write wins; [get] fails with [NotFoundError]
    when nothing was published for the identifier and returns the published
    metadata otherwise. *)
Module MetadataStore.

Section Store.
Context {Metadata : Type}.

Definition not_found_error (engine_id : string) : exn :=
  Exn (UserError "NotFoundError") engine_id None.

Definition put (engine_id : string) (metadata : Metadata)
    (store : gmap string Metadata) : gmap string Metadata :=
  <[engine_id := metadata]> store.

Definition get (engine_id : string) (store : gmap string Metadata) : result Metadata :=
  match store !! engine_id with
  | Some metadata => Ok metadata
  | None => Raise (not_found_error engine_id)
  end.

End Store.

End MetadataStore.

(** ** [vllm_nixl/prefill_worker.py] *)

Module Prefill.

Section Handler.
Context {SamplingRest NixlMetadata RequestOutput : Type}.

(** [SamplingParams]: the two fields the handler writes, and the rest. *)
Record SamplingParams : Type :=
  { max_tokens : option Z;
    min_tokens : Z;
    sampling_rest : SamplingRest }.

Record RemotePrefillRequest : Type :=
  { engine_id : string;
    request_id : string;
    prompt_token_ids : list Z;
    sampling_params : SamplingParams;
    block_ids : list Z }.

Record RemotePrefillParams : Type :=
  { is_remote_decode : bool;
    decode_block_ids : list Z;
    decode_engine_id : string }.

Record TokensPrompt : Type := { tokens : list Z }.

Inductive event : Type :=
| EvStoreGet (engine_id : string)
| EvAddRemoteNixlMetadata (remote_metadata : NixlMetadata)
| EvGenerate (request_id : string) (prompt : TokensPrompt)
    (sampling_params : SamplingParams) (remote_prefill_params : RemotePrefillParams).

(** [self.engine_client] and [self._metadata_store] are only called;
    [self._loaded_metadata] is the state the handler owns. *)
Record RequestHandler : Type := { _loaded_metadata : gset string }.

Record collaborators : Type :=
  { (* msgspec.json.decode(raw_request.encode("utf-8"), type=RemotePrefillRequest) *)
    decode : string -> result RemotePrefillRequest;
    metadata_store_get : list event -> string -> result NixlMetadata;
    add_remote_nixl_metadata : list event -> NixlMetadata -> result unit;
    engine_generate :
      list event -> string -> TokensPrompt -> SamplingParams -> RemotePrefillParams ->
      result (async_iter RequestOutput) }.

Variable env : collaborators.

(** Lines 46-47: two attribute assignments on the object that
    [request.sampling_params] refers to. *)
Definition set_max_tokens (v : Z) (sp : SamplingParams) : SamplingParams :=
  {| max_tokens := Some v; min_tokens := min_tokens sp; sampling_rest := sampling_rest sp |}.

Definition set_min_tokens (v : Z) (sp : SamplingParams) : SamplingParams :=
  {| max_tokens := max_tokens sp; min_tokens := v; sampling_rest := sampling_rest sp |}.

Definition set_sampling_params (sp : SamplingParams) (r : RemotePrefillRequest)
  : RemotePrefillRequest :=
  {| engine_id := engine_id r; request_id := request_id r;
     prompt_token_ids := prompt_token_ids r; sampling_params := sp;
     block_ids := block_ids r |}.

Definition add_loaded (id : string) (s : RequestHandler) : RequestHandler :=
  {| _loaded_metadata := {[id]} ∪ _loaded_metadata s |}.

Local Abbreviation PrefillM := (M RequestHandler event unit).

(** Lines 61-82: load the metadata of the decode engine on first
    contact. *)
Definition load_metadata (id : string) : PrefillM unit :=
  self <- get_self ;;
  if decide (id ∈ _loaded_metadata self) then
    ret tt
  else
    remote_metadata <- call (fun tr => metadata_store_get env tr id) (EvStoreGet id) ;;
    call (fun tr => add_remote_nixl_metadata env tr remote_metadata)
         (EvAddRemoteNixlMetadata remote_metadata) ;;;
    modify_self (add_loaded id).

(** Lines 87-92: the call to [engine_client.generate] for a request
    whose sampling parameters have been overwritten. *)
Definition generate_event (request : RemotePrefillRequest) : event :=
  EvGenerate (request_id request) {| tokens := prompt_token_ids request |}
    (sampling_params request)
    {| is_remote_decode := true;
       decode_block_ids := block_ids request;
       decode_engine_id := engine_id request |}.

(** Lines 45-47: [request.sampling_params] is the object that is
    written to, so the request sees the new values too. *)
Definition overwrite_sampling (request : RemotePrefillRequest) : RemotePrefillRequest :=
  set_sampling_params
    (set_min_tokens 1 (set_max_tokens 1 (sampling_params request))) request.

Definition generate (raw_request : string) : PrefillM unit :=
  request <- lift (decode env raw_request) ;;
  let request := overwrite_sampling request in
  let sampling_params := sampling_params request in
  let remote_prefill_params :=
    {| is_remote_decode := true;
       decode_block_ids := block_ids request;
       decode_engine_id := engine_id request |} in
  load_metadata (engine_id request) ;;;
  outputs <-
    call (fun tr => engine_generate env tr (request_id request)
                      {| tokens := prompt_token_ids request |}
                      sampling_params remote_prefill_params)
         (generate_event request) ;;
  async_for outputs (fun _ => yield_ tt).

(** *** Reading a trace *)

Definition is_store_get (id : string) (ev : event) : bool :=
  match ev with EvStoreGet id' => String.eqb id' id | _ => false end.

Definition store_gets (id : string) (tr : list event) : nat :=
  length (List.filter (is_store_get id) tr).



(** The store of the spec as the handler's [_metadata_store]. *)
Definition store_oracle (store : gmap string NixlMetadata)
  : list event -> string -> result NixlMetadata :=
  fun _ id => MetadataStore.get id store.


(** The same collaborators with another store and another ingestion. *)
Definition with_handshake (get : list event -> string -> result NixlMetadata)
    (add : list event -> NixlMetadata -> result unit) : collaborators :=
  {| decode := decode env;
     metadata_store_get := get;
     add_remote_nixl_metadata := add;
     engine_generate := engine_generate env |}.

End Handler.

(** *** The [__main__] block, lines 119-139 *)

Section Main.
Context {OtherArgs : Type}.

(** [AsyncEngineArgs]: the four settings the block looks at, and the rest.
    A flag tested with [is not False] / [is not True] may hold [None]. *)
Record AsyncEngineArgs : Type :=
  { enable_chunked_prefill : option bool;
    pipeline_parallel_size : Z;
    disable_async_output_proc : option bool;
    enforce_eager : option bool;
    other_args : OtherArgs }.

(** [x is not False], [x is not True]. *)
Definition is_not (b : bool) (x : option bool) : bool :=
  match x with
  | Some v => negb (Bool.eqb v b)
  | None => true
  end.

Definition chunked_prefill_message : string :=
  "Chunked prefill is not supported yet, setting to False".
Definition pipeline_parallel_message : string :=
  "Pipeline parallel size is not supported yet, setting to 1".
Definition async_output_message : string :=
  "Async output processing is not supported yet, setting to True".
Definition enforce_eager_message : string :=
  "Prefill must be done eagerly, setting to True".

(** The four [if] statements in order; the result is what is printed and
    the arguments [worker] is started with. *)
Definition main_engine_args (engine_args : AsyncEngineArgs) : list string * AsyncEngineArgs :=
  let out := [] in
  let '(out, engine_args) :=
    if is_not false (enable_chunked_prefill engine_args) then
      (out ++ [chunked_prefill_message],
       {| enable_chunked_prefill := Some false;
          pipeline_parallel_size := pipeline_parallel_size engine_args;
          disable_async_output_proc := disable_async_output_proc engine_args;
          enforce_eager := enforce_eager engine_args;
          other_args := other_args engine_args |})
    else (out, engine_args) in
  let '(out, engine_args) :=
    if negb (pipeline_parallel_size engine_args =? 1) then
      (out ++ [pipeline_parallel_message],
       {| enable_chunked_prefill := enable_chunked_prefill engine_args;
          pipeline_parallel_size := 1;
          disable_async_output_proc := disable_async_output_proc engine_args;
          enforce_eager := enforce_eager engine_args;
          other_args := other_args engine_args |})
    else (out, engine_args) in
  let '(out, engine_args) :=
    if is_not true (disable_async_output_proc engine_args) then
      (out ++ [async_output_message],
       {| enable_chunked_prefill := enable_chunked_prefill engine_args;
          pipeline_parallel_size := pipeline_parallel_size engine_args;
          disable_async_output_proc := Some true;
          enforce_eager := enforce_eager engine_args;
          other_args := other_args engine_args |})
    else (out, engine_args) in
  if is_not true (enforce_eager engine_args) then
    (out ++ [enforce_eager_message],
     {| enable_chunked_prefill := enable_chunked_prefill engine_args;
        pipeline_parallel_size := pipeline_parallel_size engine_args;
        disable_async_output_proc := disable_async_output_proc engine_args;
        enforce_eager := Some true;
        other_args := other_args engine_args |})
  else (out, engine_args).

(** The settings the prefill worker runs with. *)
Definition supported (engine_args : AsyncEngineArgs) : Prop :=
  enable_chunked_prefill engine_args = Some false /\
  pipeline_parallel_size engine_args = 1 /\
  disable_async_output_proc engine_args = Some true /\
  enforce_eager engine_args = Some true.

(** How many of the four settings differ from the supported ones. *)
Definition unsupported_settings (engine_args : AsyncEngineArgs) : nat :=
  ((if is_not false (enable_chunked_prefill engine_args) then 1 else 0) +
   (if negb (pipeline_parallel_size engine_args =? 1)%Z then 1 else 0) +
   (if is_not true (disable_async_output_proc engine_args) then 1 else 0) +
   (if is_not true (enforce_eager engine_args) then 1 else 0))%nat.

End Main.

End Prefill.

(** ** Concrete collaborators *)

Module Scenario.

Import Trtllm.

(** Messages, conversation entries, tools, chunks and JSON values are
    strings, sampling and disaggregated parameters are numbered, a promise
    is the prompt it was made for. *)
Definition engine_type : Type :=
  @LlmEngine string string string string unit Z Z pyval (list pyval) string.

Definition env_type : Type :=
  @collaborators string string string string unit unit Z Z pyval (list pyval)
    string string string.

Definition engine_ok : engine_type :=
  {| generate_async := fun _ p _ _ _ => Ok p |}.

Definition executor_fault : exn := Exn CppExecutorError "executor is down" None.

Definition engine_faulty : engine_type :=
  {| generate_async := fun _ _ _ _ _ => Raise executor_fault |}.

Definition bad_prompt : exn := Exn ValueError "prompt too long" None.

Definition engine_failing : engine_type :=
  {| generate_async := fun _ _ _ _ _ => Raise bad_prompt |}.

Definition env_ok : env_type :=
  {| uuid4 := fun _ => "req-0"%string;
     parse_chat_message_content := fun _ m => Ok [m];
     model_dump := fun _ t => Ok t;
     apply_chat_template := fun _ conversation _ _ => Ok (String.concat " " conversation);
     chat_to_sampling_params := fun _ _ => Ok 7;
     stream_response := fun _ _ _ _ _ => Ok (AsyncIter ["delta-1"; "delta-2"]%string None);
     to_sampling_params := fun _ _ => Ok 7;
     to_llm_disaggregated_params := fun _ _ => Ok 9;
     merge_promises := fun _ ps => Ok ps;
     create_completion_generator :=
       fun _ _ _ _ => Ok (AsyncIter ["chunk-1"; "chunk-2"]%string None);
     json_loads := fun c => Ok c;
     raise_signal := fun _ _ => Ok tt |}.

Definition keyboard_interrupt : exn := Exn KeyboardInterrupt EmptyString None.

(** The same collaborators in a process that runs Python's default
    [SIGINT] handler. *)
Definition env_default_sigint : env_type :=
  {| uuid4 := uuid4 env_ok;
     parse_chat_message_content := parse_chat_message_content env_ok;
     model_dump := model_dump env_ok;
     apply_chat_template := apply_chat_template env_ok;
     chat_to_sampling_params := chat_to_sampling_params env_ok;
     stream_response := stream_response env_ok;
     to_sampling_params := to_sampling_params env_ok;
     to_llm_disaggregated_params := to_llm_disaggregated_params env_ok;
     merge_promises := merge_promises env_ok;
     create_completion_generator := create_completion_generator env_ok;
     json_loads := json_loads env_ok;
     raise_signal := fun _ _ => Raise keyboard_interrupt |}.

Definition handler (engine : engine_type) (count : Z) : TensorrtLLMEngine :=
  {| _llm_engine := Some engine; _ongoing_request_count := count |}.

Definition completion (p : prompt_field) (k : option Z) : @CompletionRequest unit :=
  {| prompt := p; stream := true; n := k; fields := tt |}.

Definition chat (streaming : bool) : @nvChatCompletionRequest string string unit unit :=
  {| messages := ["hello"%string]; tools := None; chat_stream := streaming;
     template_args := tt; chat_fields := tt |}.

Definition hello_world : prompt_field :=
  PromptList [PyStr "hello"; PyStr "world"].

(** Scenario 6 of the spec: two prompts, two completions each. *)
Definition two_by_two : world TensorrtLLMEngine event string * result unit :=
  run (generate_completion env_ok (completion hello_world (Some 2))) None
      (handler engine_ok 0) [].

(** A streamed chat on an engine whose executor is down, in a process with
    the default [SIGINT] handler. *)
Definition chat_faulted_default : world TensorrtLLMEngine event string * result unit :=
  run (generate_chat env_default_sigint (chat true)) None (handler engine_faulty 0) [].

(** A chat request that asks for no streaming, every collaborator
    working. *)
Definition chat_unstreamed : world TensorrtLLMEngine event string * result unit :=
  run (generate_chat env_ok (chat false)) None (handler engine_ok 0) [].

Import Prefill.

(** Prefill: no further sampling fields, metadata are strings, engine
    outputs carry nothing; the raw request is read as the identifier of
    the decode engine. *)
Definition prefill_env_type : Type := @Prefill.collaborators unit string unit.

Definition decoded (raw : string) : RemotePrefillRequest :=
  {| engine_id := raw; request_id := "prefill-0";
     prompt_token_ids := [11; 12; 13];
     sampling_params := {| max_tokens := Some 256; min_tokens := 0; sampling_rest := tt |};
     block_ids := [4; 5] |}.

Definition ingestion_failure : exn := Exn RuntimeError "agent rejected the metadata" None.

Definition prefill_env (store : gmap string string) (ingestion_works : bool)
  : prefill_env_type :=
  {| decode := fun raw => Ok (decoded raw);
     metadata_store_get := store_oracle store;
     add_remote_nixl_metadata :=
       fun _ _ => if ingestion_works then Ok tt else Raise ingestion_failure;
     engine_generate := fun _ _ _ _ _ => Ok (AsyncIter [tt] None) |}.

Definition fresh_handler : RequestHandler := {| _loaded_metadata := ∅ |}.

Definition published : gmap string string :=
  MetadataStore.put "decode-0" "addr-0" ∅.

(** Two requests in a row from the decode engine ["decode-0"]. *)
Definition first_run (env : prefill_env_type) : world RequestHandler event unit * result unit :=
  run (generate env "decode-0") None fresh_handler [].



Definition chat_streamed : world TensorrtLLMEngine Trtllm.event string * result unit :=
  run (generate_chat env_ok (chat true)) None (handler engine_ok 0) [].

(** Three completion requests in a row: an empty prompt list, scenario 6,
    and a request whose consumer closes after the first chunk. *)
Definition three_completions : list (@CompletionRequest unit * option nat) :=
  [ (completion (PromptList []) None, None);
    (completion hello_world (Some 2), None);
    (completion (PromptStr "hello") None, Some 0%nat) ].

Definition three_served : TensorrtLLMEngine * list Trtllm.event * list (result unit) :=
  serve (generate_completion env_ok) three_completions (handler engine_ok 0) [].

Definition decode_error : exn :=
  Exn (UserError "DecodeError") "Expected `object`, got `str`" None.

Definition undecodable_env : prefill_env_type :=
  {| decode := fun _ => Raise decode_error;
     metadata_store_get := store_oracle published;
     add_remote_nixl_metadata := fun _ _ => Ok tt;
     engine_generate := fun _ _ _ _ _ => Ok (AsyncIter [tt] None) |}.

Definition generation_failure : exn := Exn RuntimeError "engine is dead" None.

(** The store and the ingestion work, the engine's [generate] raises. *)
Definition broken_generation_env : prefill_env_type :=
  {| decode := fun raw => Ok (decoded raw);
     metadata_store_get := store_oracle published;
     add_remote_nixl_metadata := fun _ _ => Ok tt;
     engine_generate := fun _ _ _ _ _ => Raise generation_failure |}.

Definition loaded_handler : RequestHandler := {| _loaded_metadata := {["decode-0"%string]} |}.

(** The engine yields three outputs, then its iterator raises. *)
Definition interrupted_env : prefill_env_type :=
  {| decode := fun raw => Ok (decoded raw);
     metadata_store_get := store_oracle published;
     add_remote_nixl_metadata := fun _ _ => Ok tt;
     engine_generate := fun _ _ _ _ _ => Ok (AsyncIter [tt; tt; tt] (Some generation_failure)) |}.

(** Requests from ["decode-0"], from an engine that published nothing, and
    from ["decode-0"] again with a consumer that closes at once. *)
Definition mixed_requests : list (string * option nat) :=
  [ ("decode-0"%string, None); ("decode-1"%string, None); ("decode-0"%string, Some 0%nat) ].

Definition mixed_served : RequestHandler * list event * list (result unit) :=
  serve (generate (prefill_env ∅ true)) mixed_requests loaded_handler [].

End Scenario.

(** * Properties *)

(** ** Facts about generator bodies *)

Module GenFacts.

Section Facts.
Context {S E Y : Type}.
Local Abbreviation M := (Gen.M S E Y).

Lemma world_eta (w : world S E Y) :
  World (self w) (trace w) (yielded w) (consumer w) = w.
Proof. by destruct w. Qed.

Lemma only_calls_keeps_self {A} (m : M A) : only_calls m -> keeps_self m.
Proof. intros H w w' r Hm. destruct (H _ _ _ Hm) as [new ->]. done. Qed.

Lemma only_calls_ret {A} (a : A) : only_calls (ret a : M A).
Proof. intros w w' r [= <- _]. exists []. by rewrite app_nil_r, world_eta. Qed.

Lemma only_calls_raise {A} e : only_calls (raise e : M A).
Proof. intros w w' r [= <- _]. exists []. by rewrite app_nil_r, world_eta. Qed.

Lemma only_calls_lift {A} (x : result A) : only_calls (lift x : M A).
Proof. intros w w' r [= <- _]. exists []. by rewrite app_nil_r, world_eta. Qed.

Lemma only_calls_get_self : only_calls (get_self : M S).
Proof. intros w w' r [= <- _]. exists []. by rewrite app_nil_r, world_eta. Qed.

Lemma only_calls_call {A} (oracle : list E -> result A) ev : only_calls (call oracle ev : M A).
Proof. intros w w' r [= <- _]. by exists [ev]. Qed.

Lemma only_calls_bind {A B} (m : M A) (f : A -> M B) :
  only_calls m -> (forall a, only_calls (f a)) -> only_calls (bind m f).
Proof.
  intros Hm Hf w w' r. unfold bind.
  destruct (m w) as [w1 [a|e]] eqn:E1; destruct (Hm _ _ _ E1) as [n1 ->].
  - intros E2. destruct (Hf _ _ _ _ E2) as [n2 ->]. cbn.
    exists (n1 ++ n2). by rewrite app_assoc.
  - intros [= <- _]. by exists n1.
Qed.

Lemma only_calls_fold_m {A B} (f : B -> A -> M B) (l : list A) :
  (forall acc x, only_calls (f acc x)) -> forall acc, only_calls (fold_m f l acc).
Proof.
  intros Hf. induction l as [|x l IH]; intros acc; cbn.
  - apply only_calls_ret.
  - apply only_calls_bind; auto.
Qed.

Lemma keeps_self_bind {A B} (m : M A) (f : A -> M B) :
  keeps_self m -> (forall a, keeps_self (f a)) -> keeps_self (bind m f).
Proof.
  intros Hm Hf w w' r. unfold bind.
  destruct (m w) as [w1 [a|e]] eqn:E1; pose proof (Hm _ _ _ E1) as H1.
  - intros E2. rewrite (Hf _ _ _ _ E2). done.
  - by intros [= <- _].
Qed.

Lemma keeps_self_yield (y : Y) : keeps_self (yield_ y : M unit).
Proof.
  intros w w' r. unfold yield_.
  destruct (closes_at _ _); by intros [= <- _].
Qed.

Lemma keeps_self_for_each {A} (l : list A) (body : A -> M unit) :
  (forall x, keeps_self (body x)) -> keeps_self (for_each l body).
Proof.
  intros Hb. induction l as [|x l IH]; cbn.
  - apply only_calls_keeps_self, only_calls_ret.
  - apply keeps_self_bind; auto.
Qed.

Lemma keeps_self_async_for {A} (s : async_iter A) (body : A -> M unit) :
  (forall x, keeps_self (body x)) -> keeps_self (async_for s body).
Proof.
  intros Hb. unfold async_for. apply keeps_self_bind.
  - by apply keeps_self_for_each.
  - intros _. destruct (ending s); apply only_calls_keeps_self;
      [apply only_calls_raise | apply only_calls_ret].
Qed.

End Facts.

End GenFacts.

(** ** The TensorRT-LLM handlers *)

Module TrtllmFacts.

Import Trtllm GenFacts.

Section Facts.
Context {Message ConvEntry Tool ToolDict TemplateArgs Fields : Type}.
Context {SamplingParams DisaggregatedParams Promise MergedGenerator : Type}.
Context {ChatResponse CompletionChunk Json : Type}.

Local Abbreviation Ev :=
  (@event Message ConvEntry Tool ToolDict TemplateArgs SamplingParams
     DisaggregatedParams Promise MergedGenerator CompletionChunk).
Local Abbreviation Handler :=
  (@TensorrtLLMEngine Message ConvEntry Tool ToolDict TemplateArgs SamplingParams
     DisaggregatedParams Promise MergedGenerator CompletionChunk).
Local Abbreviation Engine :=
  (@LlmEngine Message ConvEntry Tool ToolDict TemplateArgs SamplingParams
     DisaggregatedParams Promise MergedGenerator CompletionChunk).

Variable env : @collaborators Message ConvEntry Tool ToolDict TemplateArgs Fields
                 SamplingParams DisaggregatedParams Promise MergedGenerator
                 ChatResponse CompletionChunk Json.

(** The invocation loop calls the engine on a prefix of the prompts, in
    order, and on all of them unless a call raises. *)
Lemma invoke_loop_run (request : @CompletionRequest Fields) (sp : SamplingParams)
    (dp : DisaggregatedParams) (eng : Engine) prompts :
  forall (acc : list Promise) (w w' : world Handler Ev Json) r,
  _llm_engine (self w) = Some eng ->
  fold_m (invoke_step request sp dp) prompts acc w = (w', r) ->
  exists j, (j <= length prompts)%nat /\
    w' = World (self w)
           (trace w ++ map (invoke_event request sp dp) (firstn j prompts))
           (yielded w) (consumer w) /\
    match r with
    | Ok _ => j = length prompts
    | Raise e => engine_raises eng request sp dp e
    end.
Proof.
  induction prompts as [|p ps IH]; intros acc w w' r Heng; cbn.
  - intros [= <- <-]. exists 0%nat. cbn. rewrite app_nil_r, world_eta. auto.
  - unfold bind at 1, invoke_step at 1. unfold bind at 1, get_self at 1.
    rewrite Heng. unfold bind at 1, call at 1.
    destruct (generate_async eng (trace w) p sp (stream request) (Some dp))
      as [promise|e] eqn:Ecall.
    + unfold ret at 1. intros Hrest.
      apply IH in Hrest; [|done]. destruct Hrest as (j & Hj & -> & Hr). cbn.
      exists (Datatypes.S j). split; [lia|]. split.
      * cbn. by rewrite <- app_assoc.
      * destruct r; [by rewrite Hr | done].
    + intros [= <- <-]. exists 1%nat. split; [cbn; lia|]. split.
      * cbn. by rewrite firstn_0.
      * by exists (trace w), p.
Qed.

Lemma send_chunk_keeps_self (response : CompletionChunk) :
  keeps_self (send_chunk env response : Gen.M Handler Ev Json unit).
Proof.
  apply keeps_self_bind.
  - apply only_calls_keeps_self, only_calls_call.
  - intros v. apply keeps_self_yield.
Qed.

(** Streaming only adds [json.loads] calls to the trace. *)
Lemma send_chunks_trace (chunks : list CompletionChunk) :
  forall (w w' : world Handler Ev Json) r,
  for_each chunks (send_chunk env) w = (w', r) ->
  exists j, trace w' = trace w ++ map EvJsonLoads (firstn j chunks).
Proof.
  induction chunks as [|x l IH]; intros w w' r; cbn.
  - intros [= <- _]. exists 0%nat. by rewrite app_nil_r.
  - unfold bind at 1, send_chunk at 1. unfold bind at 1, call at 1.
    destruct (json_loads env x) as [v|e].
    + unfold yield_ at 1. cbn.
      destruct (closes_at _ _).
      * intros [= <- _]. exists 1%nat. cbn. by rewrite firstn_0.
      * intros Hrest. apply IH in Hrest as [j ->]. cbn.
        exists (Datatypes.S j). cbn. by rewrite <- app_assoc.
    + intros [= <- _]. exists 1%nat. cbn. by rewrite firstn_0.
Qed.

Lemma async_send_trace (s : async_iter CompletionChunk) (w w' : world Handler Ev Json) r :
  async_for s (send_chunk env) w = (w', r) ->
  exists j, trace w' = trace w ++ map EvJsonLoads (firstn j (items s)).
Proof.
  unfold async_for, bind.
  destruct (for_each _ _ w) as [w1 [[]|e]] eqn:E1;
    apply send_chunks_trace in E1 as [j Hj].
  - destruct (ending s); intros [= <- _]; eauto.
  - intros [= <- _]; eauto.
Qed.

Lemma created_with_app (a b : list Ev) :
  created_with (a ++ b) = created_with a ++ created_with b.
Proof. unfold created_with. by rewrite flat_map_app. Qed.

Lemma created_with_invokes (request : @CompletionRequest Fields) sp dp (l : list pyval) :
  created_with (map (invoke_event request sp dp) l : list Ev) = [].
Proof. induction l; cbn; auto. Qed.

Lemma created_with_loads (l : list CompletionChunk) :
  created_with (map EvJsonLoads l : list Ev) = [].
Proof. induction l; cbn; auto. Qed.

Lemma quiet_loads (l : list CompletionChunk) :
  forallb (fun ev : Ev => negb (derives_or_invokes ev)) (map EvJsonLoads l) = true.
Proof. induction l; cbn; auto. Qed.


Lemma set_count_back (s : Handler) :
  set_count (fun c => c - 1) (set_count (fun c => c + 1) s) = s.
Proof. destruct s as [e k]. unfold set_count; cbn. f_equal. lia. Qed.

Lemma completion_run (request : @CompletionRequest Fields) (eng : Engine) count c tr
    prompts (w' : world Handler Ev Json) r :
  normalize_prompt (prompt request) = Ok prompts ->
  run (generate_completion env request) c
      {| _llm_engine := Some eng; _ongoing_request_count := count |} tr = (w', r) ->
  _ongoing_request_count (self w') = (if is_raise r then count + 1 else count) /\
  exists new : list Ev, trace w' = tr ++ new /\
    (created_with new = [num_choices prompts request] \/
     (created_with new = [] /\
      exists e, r = Raise e /\ raised_before_creation env eng request e)) /\
    forall sp dp,
      to_sampling_params env tr request = Ok sp ->
      to_llm_disaggregated_params env (tr ++ [EvToSamplingParams]) request = Ok dp ->
      exists j rest, (j <= length prompts)%nat /\
        new = [EvToSamplingParams; EvToLlmDisaggregatedParams]
              ++ map (invoke_event request sp dp) (firstn j prompts) ++ rest /\
        forallb (fun ev => negb (derives_or_invokes ev)) rest = true /\
        (j = length prompts \/
         (rest = [] /\ exists e, r = Raise e /\ engine_raises eng request sp dp e)).
Proof.
  intros Hnorm. unfold run, generate_completion.
  unfold bind at 1, get_self at 1. cbn [self _llm_engine].
  unfold bind at 1, modify_self at 1. cbn [self trace yielded consumer].
  unfold bind at 1, lift at 1. rewrite Hnorm.
  unfold bind at 1, call at 1. cbn [self trace yielded consumer].
  destruct (to_sampling_params env tr request) as [sp|e] eqn:Esp.
  2:{ intros [= <- <-]. split; [by cbn|]. exists [EvToSamplingParams].
      split; [done|]. split; [|intros ? ? [=]].
      right. split; [done|]. exists e. split; [done|]. left. by exists tr. }
  unfold bind at 1, call at 1. cbn [self trace yielded consumer].
  destruct (to_llm_disaggregated_params env (tr ++ [EvToSamplingParams]) request)
    as [dp|e] eqn:Edp.
  2:{ intros [= <- <-]. split; [by cbn|].
      exists [EvToSamplingParams; EvToLlmDisaggregatedParams].
      split; [by rewrite <- app_assoc|]. split; [|intros ? ? _ [=]].
      right. split; [done|]. exists e. split; [done|]. right; left.
      by exists (tr ++ [EvToSamplingParams]). }
  unfold bind at 1, invoke_all.
  destruct (fold_m _ _ _ _) as [w1 r1] eqn:Einv.
  apply (invoke_loop_run _ _ _ eng) in Einv; [|done].
  destruct Einv as (j & Hj & -> & Hfull). cbn [self trace yielded consumer] in *.
  set (pre := [EvToSamplingParams; EvToLlmDisaggregatedParams] : list Ev).
  set (calls := map (invoke_event request sp dp) (take j prompts)).
  assert (Htr : (tr ++ [EvToSamplingParams]) ++ [EvToLlmDisaggregatedParams] = tr ++ pre)
    by (by rewrite <- app_assoc).
  rewrite Htr.
  destruct r1 as [promises|e].
  2:{ intros [= <- <-]. split; [by cbn|]. exists (pre ++ calls).
      split; [cbn; by rewrite <- !app_assoc|]. split.
      - right. split.
        + rewrite created_with_app. unfold calls. by rewrite created_with_invokes.
        + exists e. split; [done|]. right; right; left. by exists sp, dp.
      - intros sp' dp' [= <-] [= <-]. exists j, [].
        split; [done|]. split; [by rewrite app_nil_r|]. split; [done|].
        right. split; [done|]. by exists e. }
  subst j.
  unfold bind at 1, call at 1. cbn [self trace yielded consumer].
  assert (Hcalls : created_with calls = []) by apply created_with_invokes.
  destruct (merge_promises env _ promises) as [generator|e] eqn:Emerge.
  2:{ intros [= <- <-]. split; [by cbn|].
      exists (pre ++ calls ++ [EvMergePromises promises]).
      split; [cbn; by rewrite <- !app_assoc|]. split.
      - right. split; [by rewrite !created_with_app, Hcalls|].
        exists e. split; [done|]. right; right; right. eauto.
      - intros sp' dp' [= <-] [= <-]. exists (length prompts), [EvMergePromises promises].
        repeat split; auto. }
  unfold bind at 1, call at 1. cbn [self trace yielded consumer].
  set (built := [EvMergePromises promises;
                 EvCreateCompletionGenerator generator (num_choices prompts request)]
                : list Ev).
  destruct (create_completion_generator env _ request generator _) as [chunks|e].
  2:{ intros [= <- <-]. split; [by cbn|].
      exists (pre ++ calls ++ built).
      split; [cbn; by rewrite <- !app_assoc|]. split.
      - left. rewrite !created_with_app, Hcalls. done.
      - intros sp' dp' [= <-] [= <-]. exists (length prompts), built. repeat split; auto. }
  unfold bind at 1.
  destruct (async_for chunks (send_chunk env) _) as [w2 r2] eqn:Esend.
  pose proof (keeps_self_async_for _ _ (send_chunk_keeps_self) _ _ _ Esend) as Hself.
  apply async_send_trace in Esend as [k Hk].
  cbn [self trace yielded consumer] in *.
  set (loads := map EvJsonLoads (take k (items chunks)) : list Ev) in *.
  assert (Hnew : trace w2 = tr ++ pre ++ calls ++ built ++ loads).
  { rewrite Hk. cbn. by rewrite <- !app_assoc. }
  assert (Hcreated : created_with (pre ++ calls ++ built ++ loads)
                     = [num_choices prompts request]).
  { rewrite !created_with_app, Hcalls. unfold loads.
    by rewrite created_with_loads. }
  assert (Hquiet : forallb (fun ev : Ev => negb (derives_or_invokes ev)) (built ++ loads)
                   = true).
  { rewrite forallb_app. unfold loads. by rewrite quiet_loads. }
  destruct r2 as [[]|e].
  - unfold modify_self. intros [= <- <-]. cbn [self trace yielded consumer].
    rewrite Hself, set_count_back. split; [done|].
    exists (pre ++ calls ++ built ++ loads). split; [done|]. split; [by left|].
    intros sp' dp' [= <-] [= <-]. exists (length prompts), (built ++ loads). repeat split; auto.
  - intros [= <- <-]. rewrite Hself. split; [by cbn|].
    exists (pre ++ calls ++ built ++ loads). split; [done|]. split; [by left|].
    intros sp' dp' [= <-] [= <-]. exists (length prompts), (built ++ loads). repeat split; auto.
Qed.

(** *** Claims about [generate_completion] *)

(** C10. A completion request whose prompt is the empty list: after the
    counter has been incremented, and before any collaborator is called,
    evaluating [request.prompt[0]] raises [IndexError], which nothing in
    the handler catches and which is none of the [RuntimeError]s the
    handlers raise themselves. *)
Theorem empty_prompt_list_raises_index_error (eng : Engine) count st k (f : Fields) c
    (tr : list Ev) :
  run (generate_completion env {| prompt := PromptList []; stream := st; n := k; fields := f |})
      c {| _llm_engine := Some eng; _ongoing_request_count := count |} tr
  = (World {| _llm_engine := Some eng; _ongoing_request_count := count + 1 |} tr [] c,
     Raise (Exn IndexError "list index out of range" None))
  /\ isinstance (Exn IndexError "list index out of range" None) RuntimeError = false.
Proof. split; reflexivity. Qed.



(** The counter after a request whose prompt normalizes: back to its
    value before the request exactly when the handler runs to its end. *)
Lemma completion_counter_after (request : @CompletionRequest Fields)
    (eng : Engine) count c tr prompts (w' : world Handler Ev Json) r :
  normalize_prompt (prompt request) = Ok prompts ->
  run (generate_completion env request) c
      {| _llm_engine := Some eng; _ongoing_request_count := count |} tr = (w', r) ->
  _ongoing_request_count (self w') = (if is_raise r then count + 1 else count).
Proof. intros Hnorm Hrun. by destruct (completion_run _ _ _ _ _ _ _ _ Hnorm Hrun). Qed.

(** *** Claims about [generate_chat] *)

Lemma only_calls_try_except {A} (body : Gen.M Handler Ev ChatResponse A) clauses :
  only_calls body ->
  Forall (fun cl => forall e, only_calls (snd cl e)) clauses ->
  only_calls (try_except body clauses).
Proof.
  intros Hb Hc w w' r. unfold try_except.
  destruct (body w) as [w1 [a|e]] eqn:E1; destruct (Hb _ _ _ E1) as [n1 ->].
  - intros [= <- _]. by exists n1.
  - assert (Hfind : forall h, find_clause clauses e = Some h -> only_calls (h e)).
    { clear -Hc. induction Hc as [|[c h] l Hh _ IH]; cbn [find_clause]; [done|].
      destruct (isinstance e c); [|exact IH].
      intros h' Heq. injection Heq as Heq. subst h'. apply Hh. }
    destruct (find_clause clauses e) as [h|].
    + destruct (h e _) as [w2 r2] eqn:E2.
      destruct (Hfind h eq_refl _ _ _ E2) as [n2 ->]. cbn.
      destruct r2; intros [= <- _]; exists (n1 ++ n2); by rewrite app_assoc.
    + intros [= <- _]. by exists n1.
Qed.

Lemma build_prompt_only_calls (request : @nvChatCompletionRequest Message Tool TemplateArgs Fields) :
  only_calls (build_prompt env request).
Proof.
  unfold build_prompt.
  apply only_calls_bind.
  { apply only_calls_fold_m. intros acc x. apply only_calls_bind.
    - apply only_calls_call.
    - intros. apply only_calls_ret. }
  intros conversation. apply only_calls_bind.
  { destruct (tools request).
    - apply only_calls_bind.
      + apply only_calls_fold_m. intros acc x. apply only_calls_bind.
        * apply only_calls_call.
        * intros. apply only_calls_ret.
      + intros. apply only_calls_ret.
    - apply only_calls_ret. }
  intros tool_dicts. apply only_calls_bind; [apply only_calls_call|].
  intros prompt. apply only_calls_bind; [apply only_calls_call|].
  intros. apply only_calls_ret.
Qed.

Lemma non_streaming_only_calls (request : @nvChatCompletionRequest Message Tool TemplateArgs Fields) :
  chat_stream request = false -> only_calls (generate_chat env request).
Proof.
  intros Hs. unfold generate_chat.
  apply only_calls_bind; [apply only_calls_get_self|].
  intros s. destruct (_llm_engine s); [|apply only_calls_raise].
  apply only_calls_bind; [apply only_calls_call|].
  intros request_id. apply only_calls_try_except.
  - unfold generate_chat_body. apply only_calls_bind; [apply build_prompt_only_calls|].
    intros [[conversation prompt] sp]. unfold invoke_and_stream.
    apply only_calls_bind; [apply only_calls_get_self|].
    intros s'. destruct (_llm_engine s'); [|apply only_calls_ret].
    apply only_calls_bind; [apply only_calls_call|].
    intros promise. rewrite Hs. apply only_calls_raise.
  - repeat constructor; cbn; intros e.
    + apply only_calls_call.
    + apply only_calls_raise.
Qed.

(** C4, amended. When the body of the [try] (building the prompt, calling
    the engine, streaming) raises an exception [e]: if [e] is a
    [CppExecutorError] the handler calls [signal.raise_signal(SIGINT)] and
    wraps nothing: it ends without an exception when the signal handler
    returns, and with the exception the signal handler raises, [e] as its
    context, when it raises; otherwise the handler fails with
    [RuntimeError("Failed to generate: " + str(e))], whose context is
    [e]. *)
Theorem chat_fault_signals_failure_wraps
    (request : @nvChatCompletionRequest Message Tool TemplateArgs Fields)
    (eng : Engine) count c tr (w1 : world Handler Ev ChatResponse) e :
  generate_chat_body env request (uuid4 env tr)
    (World {| _llm_engine := Some eng; _ongoing_request_count := count |}
           (tr ++ [EvUuid4]) [] c) = (w1, Raise e) ->
  isinstance e Exception = true ->
  run (generate_chat env request) c
      {| _llm_engine := Some eng; _ongoing_request_count := count |} tr =
  if isinstance e CppExecutorError then
    (World (self w1) (trace w1 ++ [EvRaiseSignal SIGINT]) (yielded w1) (consumer w1),
     match raise_signal env (trace w1) SIGINT with
     | Ok _ => Ok tt
     | Raise interrupt => Raise (Exn (exn_cls interrupt) (exn_msg interrupt) (Some e))
     end)
  else
    (w1, Raise (Exn RuntimeError (String.append "Failed to generate: " (str e)) (Some e))).
Proof.
  intros Hbody Hexn. unfold run, generate_chat.
  unfold bind at 1, get_self at 1. cbn [self _llm_engine].
  unfold bind at 1, call at 1. cbn [self trace yielded consumer].
  unfold try_except. rewrite Hbody. cbn [find_clause].
  destruct (isinstance e CppExecutorError).
  - unfold call. by destruct (raise_signal env (trace w1) SIGINT) as [[]|interrupt].
  - rewrite Hexn. done.
Qed.

(** What is not an instance of [Exception] ([GeneratorExit] thrown in by
    a consumer that closes the generator, [CancelledError]) is caught by
    neither clause. *)
Lemma chat_base_exception_passes
    (request : @nvChatCompletionRequest Message Tool TemplateArgs Fields)
    (eng : Engine) count c tr (w1 : world Handler Ev ChatResponse) e :
  generate_chat_body env request (uuid4 env tr)
    (World {| _llm_engine := Some eng; _ongoing_request_count := count |}
           (tr ++ [EvUuid4]) [] c) = (w1, Raise e) ->
  isinstance e Exception = false ->
  run (generate_chat env request) c
      {| _llm_engine := Some eng; _ongoing_request_count := count |} tr = (w1, Raise e).
Proof.
  intros Hbody Hexn. unfold run, generate_chat.
  unfold bind at 1, get_self at 1. cbn [self _llm_engine].
  unfold bind at 1, call at 1. cbn [self trace yielded consumer].
  unfold try_except. rewrite Hbody. cbn [find_clause].
  assert (Hcpp : isinstance e CppExecutorError = false).
  { revert Hexn. unfold isinstance. by destruct (exn_cls e). }
  by rewrite Hcpp, Hexn.
Qed.

(** C5, amended. A chat request with [stream = false]: nothing is ever
    yielded; and when building the prompt and calling the engine raise
    nothing, the handler fails with
    [RuntimeError("Failed to generate: Non-streaming is not supported")],
    whose context is the [RuntimeError("Non-streaming is not supported")]
    raised inside the [try]. *)
Theorem chat_non_streaming_fails_wrapped
    (request : @nvChatCompletionRequest Message Tool TemplateArgs Fields)
    (eng : Engine) count c tr (w' : world Handler Ev ChatResponse) r :
  chat_stream request = false ->
  run (generate_chat env request) c
      {| _llm_engine := Some eng; _ongoing_request_count := count |} tr = (w', r) ->
  yielded w' = [] /\
  forall w1 conversation prompt sp promise,
    build_prompt env request
      (World {| _llm_engine := Some eng; _ongoing_request_count := count |}
             (tr ++ [EvUuid4]) [] c) = (w1, Ok (conversation, prompt, sp)) ->
    generate_async eng (trace w1) (PyStr prompt) sp false None = Ok promise ->
    r = Raise (Exn RuntimeError "Failed to generate: Non-streaming is not supported"
                 (Some (Exn RuntimeError "Non-streaming is not supported" None))).
Proof.
  intros Hs Hrun. split.
  - destruct (non_streaming_only_calls request Hs _ _ _ Hrun) as [new ->]. done.
  - intros w1 conversation prompt sp promise Hbuild Hcall.
    pose proof (build_prompt_only_calls request _ _ _ Hbuild) as [new Hw1].
    cbn [self trace yielded consumer] in Hw1.
    revert Hrun. unfold run, generate_chat.
    unfold bind at 1, get_self at 1. cbn [self _llm_engine].
    unfold bind at 1, call at 1. cbn [self trace yielded consumer].
    unfold try_except, generate_chat_body. unfold bind at 1. rewrite Hbuild.
    unfold invoke_and_stream. unfold bind at 1, get_self at 1.
    rewrite Hw1. cbn [self _llm_engine].
    unfold bind at 1, call at 1. cbn [self trace yielded consumer].
    rewrite Hs. rewrite Hw1 in Hcall. cbn [trace] in Hcall. rewrite Hcall.
    cbn. by intros [= _ <-].
Qed.

End Facts.

(** C7, as stated, fails on the empty list: nothing is normalized, the
    handler raises instead. *)
Lemma normalize_prompt_empty_list :
  normalize_prompt (PromptList []) = Raise (Exn IndexError "list index out of range" None)
  /\ ~ exists prompts, normalize_prompt (PromptList []) = Ok prompts.
Proof. split; [reflexivity|]. intros [prompts H]. discriminate H. Qed.

(** C7, amended. A prompt field other than the empty list is normalized to
    [K >= 1] prompts: a string to the one-element list holding it, a list
    whose first element is an integer (a pre-tokenized prompt) to the
    one-element list holding that list, any other non-empty list to
    itself. *)
Theorem normalize_prompt_non_empty (p : prompt_field) :
  p <> PromptList [] ->
  exists prompts, normalize_prompt p = Ok prompts /\
    (1 <= length prompts)%nat /\
    prompts = match p with
              | PromptStr s => [PyStr s]
              | PromptList (PyInt z :: rest) => [PyList (PyInt z :: rest)]
              | PromptList l => l
              end.
Proof.
  intros Hne. destruct p as [s|[|x l]]; [| done |].
  - exists [PyStr s]. cbn. auto.
  - destruct x; cbn; eexists; (split; [reflexivity|]); cbn; split; auto; lia.
Qed.

Lemma normalize_prompt_non_empty_hello_world :
  Scenario.hello_world <> PromptList [] /\
  exists prompts, normalize_prompt Scenario.hello_world = Ok prompts /\
    (1 <= length prompts)%nat /\ prompts = [PyStr "hello"; PyStr "world"].
Proof.
  split; [discriminate|].
  apply (normalize_prompt_non_empty Scenario.hello_world). discriminate.
Defined.

(** C1 fails on the code: the decrement is the last statement of the
    handler and no [finally] guards it.  A request with an empty prompt
    list, and a request on which the engine raises, both leave the
    counter one above its value before the request. *)
Theorem completion_counter_not_released_on_error :
  (let out := run (generate_completion Scenario.env_ok
                     (Scenario.completion (PromptList []) None))
                  None (Scenario.handler Scenario.engine_ok 0) [] in
   snd out = Raise index_error /\ _ongoing_request_count (self (fst out)) = 1) /\
  (let out := run (generate_completion Scenario.env_ok
                     (Scenario.completion (PromptStr "hello") None))
                  None (Scenario.handler Scenario.engine_failing 0) [] in
   snd out = Raise Scenario.bad_prompt /\ _ongoing_request_count (self (fst out)) = 1) /\
  (let out := run (generate_completion Scenario.env_ok
                     (Scenario.completion (PromptStr "hello") None))
                  (Some 0%nat) (Scenario.handler Scenario.engine_ok 0) [] in
   snd out = Raise generator_exit /\ _ongoing_request_count (self (fst out)) = 1).
Proof. repeat split. Qed.



Lemma executor_fault_raises_sigint :
  isinstance Scenario.executor_fault Exception = true /\
  run (generate_chat Scenario.env_ok (Scenario.chat true)) None
      (Scenario.handler Scenario.engine_faulty 0) []
  = (World (Scenario.handler Scenario.engine_faulty 0)
       [EvUuid4; EvParseChatMessageContent "hello"%string;
        EvApplyChatTemplate ["hello"%string] None tt; EvToSamplingParams;
        EvGenerateAsync (PyStr "hello") 7 true None; EvRaiseSignal SIGINT]
       [] None,
     Ok tt).
Proof.
  split; [reflexivity|].
  apply (chat_fault_signals_failure_wraps Scenario.env_ok (Scenario.chat true)
           Scenario.engine_faulty 0 None []
           (World (Scenario.handler Scenario.engine_faulty 0)
              [EvUuid4; EvParseChatMessageContent "hello"%string;
               EvApplyChatTemplate ["hello"%string] None tt; EvToSamplingParams;
               EvGenerateAsync (PyStr "hello") 7 true None]
              [] None)
           Scenario.executor_fault);
    reflexivity.
Defined.

(** C4, as stated, fails on the code: [signal.raise_signal] runs the
    [SIGINT] handler before it returns, so in a process with Python's
    default handler the executor fault does reach the caller of the
    generator, as the context of the [KeyboardInterrupt] that leaves the
    handler. *)
Lemma executor_fault_leaves_as_keyboard_interrupt :
  snd Scenario.chat_faulted_default
    = Raise (Exn KeyboardInterrupt EmptyString (Some Scenario.executor_fault)) /\
  snd Scenario.chat_faulted_default <> Ok tt.
Proof. split; [reflexivity|discriminate]. Qed.

(** C5, as stated, fails on the code: with every collaborator working the
    exception that leaves the handler is the wrapper made by
    [except Exception], not the error raised for non-streaming; and when
    the engine raises [CppExecutorError], with a signal handler that
    returns, the handler does not fail at all. *)
Lemma chat_non_streaming_not_unsupported_error :
  snd Scenario.chat_unstreamed
    = Raise (Exn RuntimeError "Failed to generate: Non-streaming is not supported"
               (Some (Exn RuntimeError "Non-streaming is not supported" None))) /\
  snd Scenario.chat_unstreamed <> Raise (Exn RuntimeError "Non-streaming is not supported" None) /\
  snd (run (generate_chat Scenario.env_ok (Scenario.chat false)) None
           (Scenario.handler Scenario.engine_faulty 0) []) = Ok tt.
Proof. split; [reflexivity|]. split; [discriminate|reflexivity]. Qed.

Lemma chat_unstreamed_fails_wrapped :
  chat_stream (Scenario.chat false) = false /\
  yielded (fst Scenario.chat_unstreamed) = [] /\
  snd Scenario.chat_unstreamed
    = Raise (Exn RuntimeError "Failed to generate: Non-streaming is not supported"
               (Some (Exn RuntimeError "Non-streaming is not supported" None))).
Proof.
  split; [reflexivity|].
  destruct (chat_non_streaming_fails_wrapped Scenario.env_ok (Scenario.chat false)
              Scenario.engine_ok 0 None []
              (fst Scenario.chat_unstreamed) (snd Scenario.chat_unstreamed)
              eq_refl eq_refl) as [Hnone Hfail].
  split; [exact Hnone|].
  apply (Hfail (World (Scenario.handler Scenario.engine_ok 0)
                  [EvUuid4; EvParseChatMessageContent "hello"%string;
                   EvApplyChatTemplate ["hello"%string] None tt; EvToSamplingParams]
                  [] None)
               ["hello"%string] "hello"%string 7 (PyStr "hello"));
    reflexivity.
Defined.

End TrtllmFacts.

(** ** The prefill handler *)

Module PrefillFacts.

Import Prefill GenFacts.

Section Facts.
Context {SamplingRest NixlMetadata RequestOutput : Type}.

Local Abbreviation Ev := (@event SamplingRest NixlMetadata).
Local Abbreviation Request := (@RemotePrefillRequest SamplingRest).

Variable env : @collaborators SamplingRest NixlMetadata RequestOutput.

(** Handing the engine's outputs on neither calls a collaborator nor
    touches the handler. *)
Lemma forward_outputs_frame (outputs : list RequestOutput) :
  forall (w w' : world RequestHandler Ev unit) r,
  for_each outputs (fun _ => yield_ tt) w = (w', r) ->
  self w' = self w /\ trace w' = trace w.
Proof.
  induction outputs as [|x l IH]; intros w w' r; cbn.
  - by intros [= <- _].
  - unfold bind at 1, yield_ at 1. destruct (closes_at _ _).
    + by intros [= <- _].
    + intros Hrest. by apply IH in Hrest as [-> ->].
Qed.

Lemma async_forward_frame (s : async_iter RequestOutput)
    (w w' : world RequestHandler Ev unit) r :
  async_for s (fun _ => yield_ tt) w = (w', r) ->
  self w' = self w /\ trace w' = trace w.
Proof.
  unfold async_for, bind.
  destruct (for_each _ _ w) as [w1 [[]|e]] eqn:E1;
    apply forward_outputs_frame in E1 as [H1 H2].
  - destruct (ending s); by intros [= <- _].
  - by intros [= <- _].
Qed.

(** The four ways a prefill request can go, by what the handshake
    does. *)
Lemma generate_run raw c (s : RequestHandler) (tr : list Ev) (decoded : Request)
    (w' : world RequestHandler Ev unit) r :
  decode env raw = Ok decoded ->
  run (generate env raw) c s tr = (w', r) ->
  let request := overwrite_sampling decoded in
  let id := engine_id decoded in
  ((id ∈ _loaded_metadata s) /\ self w' = s /\ trace w' = tr ++ [generate_event request]) \/
  ((id ∉ _loaded_metadata s) /\
   ((exists e, metadata_store_get env tr id = Raise e /\
               w' = World s (tr ++ [EvStoreGet id]) [] c /\ r = Raise e) \/
    (exists metadata e,
        metadata_store_get env tr id = Ok metadata /\
        add_remote_nixl_metadata env (tr ++ [EvStoreGet id]) metadata = Raise e /\
        w' = World s (tr ++ [EvStoreGet id; EvAddRemoteNixlMetadata metadata]) [] c /\
        r = Raise e) \/
    (exists metadata,
        metadata_store_get env tr id = Ok metadata /\
        self w' = add_loaded id s /\
        trace w' = tr ++ [EvStoreGet id; EvAddRemoteNixlMetadata metadata;
                          generate_event request]))).
Proof.
  intros Hdec. unfold run, generate.
  unfold bind at 1, lift at 1. rewrite Hdec.
  unfold bind at 1, load_metadata at 1. unfold bind at 1, get_self at 1.
  cbn [self trace yielded consumer engine_id overwrite_sampling set_sampling_params].
  destruct (decide (engine_id decoded ∈ _loaded_metadata s)) as [Hin|Hout].
  - unfold ret at 1. unfold bind at 1, call at 1. cbn [self trace yielded consumer].
    destruct (engine_generate _ _ _ _ _ _) as [outputs|e].
    + intros Hfwd. apply async_forward_frame in Hfwd as [-> ->]. left. done.
    + intros [= <- _]. left. done.
  - unfold bind at 1, call at 1. cbn [self trace yielded consumer].
    destruct (metadata_store_get env tr (engine_id decoded)) as [metadata|e].
    2:{ intros [= <- <-]. right. split; [done|]. left. by exists e. }
    unfold bind at 1, call at 1. cbn [self trace yielded consumer].
    destruct (add_remote_nixl_metadata env _ metadata) as [[]|e] eqn:Eadd.
    2:{ intros [= <- <-]. right. split; [done|]. right; left. exists metadata, e.
        by rewrite <- app_assoc. }
    unfold modify_self at 1. cbn [self trace yielded consumer].
    unfold bind at 1, call at 1. cbn [self trace yielded consumer].
    destruct (engine_generate _ _ _ _ _ _) as [outputs|e].
    + intros Hfwd. apply async_forward_frame in Hfwd as [-> ->].
      right. split; [done|]. right; right. exists metadata.
      cbn. by rewrite <- !app_assoc.
    + intros [= <- _]. right. split; [done|]. right; right. exists metadata.
      cbn. by rewrite <- !app_assoc.
Qed.

Lemma store_gets_app id (a b : list Ev) :
  store_gets id (a ++ b) = (store_gets id a + store_gets id b)%nat.
Proof. unfold store_gets. by rewrite List.filter_app, length_app. Qed.



(** C6, amended. The lookup for an engine that is not loaded raises:
    the request fails with that very exception, after a single call to
    the store; nothing is ingested, the engine is not called, and the
    loaded set is as before. *)
Theorem store_failure_fails_request raw c (s : RequestHandler) (tr : list Ev)
    (decoded : Request) e :
  decode env raw = Ok decoded ->
  engine_id decoded ∉ _loaded_metadata s ->
  metadata_store_get env tr (engine_id decoded) = Raise e ->
  run (generate env raw) c s tr
  = (World s (tr ++ [EvStoreGet (engine_id decoded)]) [] c, Raise e).
Proof.
  intros Hdec Hout Hget.
  destruct (run (generate env raw) c s tr) as [w' r] eqn:Hrun.
  destruct (generate_run _ _ _ _ _ _ _ Hdec Hrun)
    as [(Hin & _)|(_ & [(e' & Hget' & -> & ->)|[(md & e' & Hget' & _)|(md & Hget' & _)]])].
  - done.
  - rewrite Hget in Hget'. by injection Hget' as <-.
  - rewrite Hget in Hget'. discriminate.
  - rewrite Hget in Hget'. discriminate.
Qed.


End Facts.



(** C6, as stated, fails on the code: the exception that fails the request
    is the store's [NotFoundError] itself; the handler has no [except] and
    makes no [MetadataUnavailableError] of it. *)
Lemma not_found_error_not_translated :
  snd (Scenario.first_run (Scenario.prefill_env ∅ true))
    = Raise (Exn (UserError "NotFoundError") "decode-0" None) /\
  isinstance (Exn (UserError "NotFoundError") "decode-0" None)
    (UserError "MetadataUnavailableError") = false.
Proof. split; vm_compute; reflexivity. Qed.

Lemma unpublished_engine_fails_request :
  ("decode-0" ∉ _loaded_metadata Scenario.fresh_handler) /\
  metadata_store_get (Scenario.prefill_env ∅ true) [] "decode-0"
    = Raise (MetadataStore.not_found_error "decode-0") /\
  Scenario.first_run (Scenario.prefill_env ∅ true)
    = (World Scenario.fresh_handler [EvStoreGet "decode-0"] [] None,
       Raise (MetadataStore.not_found_error "decode-0")).
Proof.
  split; [apply not_elem_of_empty|]. split; [reflexivity|].
  apply (store_failure_fails_request (Scenario.prefill_env ∅ true) "decode-0" None
           Scenario.fresh_handler [] (Scenario.decoded "decode-0")
           (MetadataStore.not_found_error "decode-0"));
    [reflexivity | apply not_elem_of_empty | reflexivity].
Defined.


End PrefillFacts.

(** * Further properties of the handlers *)

(** ** More facts about generator bodies *)

Module GenMore.

Import GenFacts.

Section Facts.
Context {S E Y : Type}.
Local Abbreviation M := (Gen.M S E Y).

Lemma emits_quiet (P : E -> bool) {A} (m : M A) :
  (forall w w' r, m w = (w', r) -> trace w' = trace w) -> emits P m.
Proof. intros H w w' r Hm. exists []. rewrite app_nil_r. split; [by eapply H|done]. Qed.



Lemma emits_lift (P : E -> bool) {A} (x : result A) : emits P (lift x : M A).
Proof. apply emits_quiet. by intros w w' r [= <- _]. Qed.

Lemma emits_get_self (P : E -> bool) : emits P (get_self : M S).
Proof. apply emits_quiet. by intros w w' r [= <- _]. Qed.








Lemma emits_try_except (P : E -> bool) {A} (body : M A) clauses :
  emits P body ->
  Forall (fun cl => forall e, emits P (snd cl e)) clauses ->
  emits P (try_except body clauses).
Proof.
  intros Hb Hc w w' r. unfold try_except.
  destruct (body w) as [w1 [a|e]] eqn:E1; destruct (Hb _ _ _ E1) as (n1 & H1 & P1).
  - intros [= <- _]. by exists n1.
  - assert (Hfind : forall h, find_clause clauses e = Some h -> emits P (h e)).
    { clear -Hc. induction Hc as [|[c h] l Hh _ IH]; cbn [find_clause]; [done|].
      destruct (isinstance e c); [|exact IH].
      intros h' Heq. injection Heq as Heq. subst h'. apply Hh. }
    destruct (find_clause clauses e) as [h|].
    + destruct (h e w1) as [w2 r2] eqn:E2.
      destruct (Hfind h eq_refl _ _ _ E2) as (n2 & H2 & P2).
      assert (Hall : trace w2 = trace w ++ n1 ++ n2 /\ forallb P (n1 ++ n2) = true).
      { rewrite H2, H1, app_assoc, forallb_app, P1, P2. done. }
      destruct r2; intros [= <- _]; by exists (n1 ++ n2).
    + intros [= <- _]. by exists n1.
Qed.

Lemma keeps_self_try_except {A} (body : M A) clauses :
  keeps_self body ->
  Forall (fun cl => forall e, keeps_self (snd cl e)) clauses ->
  keeps_self (try_except body clauses).
Proof.
  intros Hb Hc w w' r. unfold try_except.
  destruct (body w) as [w1 [a|e]] eqn:E1; pose proof (Hb _ _ _ E1) as H1.
  - by intros [= <- _].
  - assert (Hfind : forall h, find_clause clauses e = Some h -> keeps_self (h e)).
    { clear -Hc. induction Hc as [|[c h] l Hh _ IH]; cbn [find_clause]; [done|].
      destruct (isinstance e c); [|exact IH].
      intros h' Heq. injection Heq as Heq. subst h'. apply Hh. }
    destruct (find_clause clauses e) as [h|].
    + destruct (h e w1) as [w2 r2] eqn:E2.
      pose proof (Hfind h eq_refl _ _ _ E2) as H2.
      destruct r2; intros [= <- _]; congruence.
    + by intros [= <- _].
Qed.

Lemma bind_inv {A B} (m : M A) (f : A -> M B) (w w' : world S E Y) r :
  bind m f w = (w', r) ->
  (exists w1 a, m w = (w1, Ok a) /\ f a w1 = (w', r)) \/
  (exists e, m w = (w', Raise e) /\ r = Raise e).
Proof.
  unfold bind. destruct (m w) as [w1 [a|e]].
  - intros H. left. by exists w1, a.
  - intros [= <- <-]. right. by exists e.
Qed.

Lemma only_calls_modify_free {A} (m : M A) (w w' : world S E Y) r :
  only_calls m -> m w = (w', r) ->
  self w' = self w /\ yielded w' = yielded w /\ consumer w' = consumer w /\
  exists new, trace w' = trace w ++ new.
Proof. intros H Hm. destruct (H _ _ _ Hm) as [new ->]. cbn. eauto. Qed.

(** With a consumer that drains the generator every value is handed
    over. *)
Lemma yield_all_drained {A} (g : A -> Y) (l : list A) (w : world S E Y) :
  consumer w = None ->
  for_each l (fun x => yield_ (g x)) w
  = (World (self w) (trace w) (yielded w ++ map g l) None, Ok tt).
Proof.
  revert w. induction l as [|x l IH]; intros w Hc; cbn.
  - unfold ret. rewrite app_nil_r, <- Hc. by destruct w.
  - unfold bind, yield_. rewrite Hc. cbn [closes_at].
    rewrite IH by done. cbn. by rewrite <- app_assoc.
Qed.


End Facts.

End GenMore.

(** ** More about the TensorRT-LLM handlers *)

Module TrtllmMore.

Import Trtllm GenFacts GenMore TrtllmFacts.

Section Facts.
Context {Message ConvEntry Tool ToolDict TemplateArgs Fields : Type}.
Context {SamplingParams DisaggregatedParams Promise MergedGenerator : Type}.
Context {ChatResponse CompletionChunk Json : Type}.

Local Abbreviation Ev :=
  (@event Message ConvEntry Tool ToolDict TemplateArgs SamplingParams
     DisaggregatedParams Promise MergedGenerator CompletionChunk).
Local Abbreviation Handler :=
  (@TensorrtLLMEngine Message ConvEntry Tool ToolDict TemplateArgs SamplingParams
     DisaggregatedParams Promise MergedGenerator CompletionChunk).
Local Abbreviation Engine :=
  (@LlmEngine Message ConvEntry Tool ToolDict TemplateArgs SamplingParams
     DisaggregatedParams Promise MergedGenerator CompletionChunk).
Local Abbreviation ChatRequest := (@nvChatCompletionRequest Message Tool TemplateArgs Fields).

Variable env : @collaborators Message ConvEntry Tool ToolDict TemplateArgs Fields
                 SamplingParams DisaggregatedParams Promise MergedGenerator
                 ChatResponse CompletionChunk Json.

(** *** Both handlers *)

(** X1. With [_llm_engine = None] both handlers raise
    [RuntimeError("Engine not initialized")] at once: the counter is not
    incremented, no collaborator is called, nothing is yielded, and in the
    chat handler the error is raised before the [try], so it is not
    wrapped. *)
Theorem engine_not_initialized_rejects (completion : @CompletionRequest Fields)
    (chat : ChatRequest) count c (tr : list Ev) :
  run (generate_completion env completion) c
      {| _llm_engine := None; _ongoing_request_count := count |} tr
  = (World {| _llm_engine := None; _ongoing_request_count := count |} tr [] c,
     Raise (Exn RuntimeError "Engine not initialized" None)) /\
  run (generate_chat env chat) c
      {| _llm_engine := None; _ongoing_request_count := count |} tr
  = (World {| _llm_engine := None; _ongoing_request_count := count |} tr [] c,
     Raise (Exn RuntimeError "Engine not initialized" None)).
Proof. split; reflexivity. Qed.

(** *** [generate_chat] *)

Lemma invoke_and_stream_keeps_self (request : ChatRequest) request_id conversation prompt
    (sp : SamplingParams) :
  keeps_self (invoke_and_stream env request request_id conversation prompt sp).
Proof.
  unfold invoke_and_stream.
  apply keeps_self_bind; [apply only_calls_keeps_self, only_calls_get_self|].
  intros s. destruct (_llm_engine s); [|apply only_calls_keeps_self, only_calls_ret].
  apply keeps_self_bind; [apply only_calls_keeps_self, only_calls_call|].
  intros promise. destruct (chat_stream request).
  - apply keeps_self_bind; [apply only_calls_keeps_self, only_calls_call|].
    intros gen. apply keeps_self_async_for. intros x. apply keeps_self_yield.
  - apply only_calls_keeps_self, only_calls_raise.
Qed.

(** X2. A chat request never changes the handler object, however it ends:
    [_ongoing_request_count] does not count chat requests and the engine
    handle stays in place. *)
Theorem chat_leaves_handler_alone (request : ChatRequest) c (s : Handler) (tr : list Ev)
    (w' : world Handler Ev ChatResponse) r :
  run (generate_chat env request) c s tr = (w', r) ->
  self w' = s.
Proof.
  assert (H : keeps_self (generate_chat env request)).
  { unfold generate_chat.
    apply keeps_self_bind; [apply only_calls_keeps_self, only_calls_get_self|].
    intros s0. destruct (_llm_engine s0); [|apply only_calls_keeps_self, only_calls_raise].
    apply keeps_self_bind; [apply only_calls_keeps_self, only_calls_call|].
    intros request_id. apply keeps_self_try_except.
    - unfold generate_chat_body. apply keeps_self_bind.
      + apply only_calls_keeps_self, build_prompt_only_calls.
      + intros [[conversation prompt] sp]. apply invoke_and_stream_keeps_self.
    - repeat constructor; cbn; intros e; apply only_calls_keeps_self.
      + apply only_calls_call.
      + apply only_calls_raise. }
  intros Hrun. exact (H _ _ _ Hrun).
Qed.


(** X3. Streaming chat with a consumer that drains the generator: when the
    prompt is built, the engine call returns and [stream_response] returns
    an iterator, the handler yields the iterator's responses unchanged and
    in order; if the iterator then raises, everything it produced before
    has been yielded, and the exception is handled as any other raised in
    the [try]: for a [CppExecutorError] the result is that of
    [signal.raise_signal(SIGINT)], an [Exception] is wrapped, anything
    else goes through. *)
Theorem chat_stream_forwards_responses (request : ChatRequest) (eng : Engine) count
    (tr : list Ev) (w1 : world Handler Ev ChatResponse) conversation prompt
    (sp : SamplingParams) (promise : Promise) (gen : async_iter ChatResponse)
    (w' : world Handler Ev ChatResponse) r :
  chat_stream request = true ->
  build_prompt env request
    (World {| _llm_engine := Some eng; _ongoing_request_count := count |}
           (tr ++ [EvUuid4]) [] None) = (w1, Ok (conversation, prompt, sp)) ->
  generate_async eng (trace w1) (PyStr prompt) sp true None = Ok promise ->
  stream_response env (trace w1 ++ [EvGenerateAsync (PyStr prompt) sp true None])
    request (uuid4 env tr) conversation promise = Ok gen ->
  run (generate_chat env request) None
      {| _llm_engine := Some eng; _ongoing_request_count := count |} tr = (w', r) ->
  yielded w' = items gen /\
  r = match ending gen with
      | None => Ok tt
      | Some e =>
          if isinstance e CppExecutorError then
            match raise_signal env
                    ((trace w1 ++ [EvGenerateAsync (PyStr prompt) sp true None])
                     ++ [EvStreamResponse (uuid4 env tr) conversation promise]) SIGINT with
            | Ok _ => Ok tt
            | Raise interrupt =>
                Raise (Exn (exn_cls interrupt) (exn_msg interrupt) (Some e))
            end
          else if isinstance e Exception then
            Raise (Exn RuntimeError (String.append "Failed to generate: " (str e)) (Some e))
          else Raise e
      end.
Proof.
  intros Hs Hbuild Hcall Hstream.
  pose proof (build_prompt_only_calls env request _ _ _ Hbuild) as [new Hw1].
  cbn [self trace yielded consumer] in Hw1.
  unfold run, generate_chat.
  unfold bind at 1, get_self at 1. cbn [self _llm_engine].
  unfold bind at 1, call at 1. cbn [self trace yielded consumer].
  unfold try_except, generate_chat_body. unfold bind at 1. rewrite Hbuild.
  unfold invoke_and_stream. unfold bind at 1, get_self at 1.
  rewrite Hw1 in *. cbn [self _llm_engine trace yielded consumer] in *.
  unfold bind at 1, call at 1. cbn [self trace yielded consumer].
  rewrite Hs, Hcall. unfold bind at 1, call at 1. cbn [self trace yielded consumer].
  rewrite Hstream. unfold async_for, bind.
  rewrite (yield_all_drained (fun x => x)) by done.
  cbn [self trace yielded consumer]. rewrite map_id, app_nil_l.
  destruct (ending gen) as [e|].
  - unfold raise. cbn [find_clause].
    destruct (isinstance e CppExecutorError).
    + unfold call. cbn [self trace yielded consumer].
      destruct (raise_signal env _ SIGINT) as [[]|interrupt]; by intros [= <- <-].
    + destruct (isinstance e Exception); unfold raise; by intros [= <- <-].
  - unfold ret. by intros [= <- <-].
Qed.







(** *** [generate_completion] *)

Lemma invoke_all_only_calls (request : @CompletionRequest Fields) prompts
    (sp : SamplingParams) (dp : DisaggregatedParams) :
  only_calls (invoke_all request prompts sp dp : Gen.M Handler Ev Json _).
Proof.
  unfold invoke_all. apply only_calls_fold_m. intros acc x. unfold invoke_step.
  apply only_calls_bind; [apply only_calls_get_self|].
  intros s. destruct (_llm_engine s); [|apply only_calls_raise].
  apply only_calls_bind; [apply only_calls_call|]. intros. apply only_calls_ret.
Qed.

(** The handler object after a completion request on an initialised
    engine, whatever the request. *)
Lemma completion_self_after (request : @CompletionRequest Fields) (eng : Engine) count c
    (tr : list Ev) (w' : world Handler Ev Json) r :
  run (generate_completion env request) c
      {| _llm_engine := Some eng; _ongoing_request_count := count |} tr = (w', r) ->
  self w' = {| _llm_engine := Some eng;
               _ongoing_request_count := if is_raise r then count + 1 else count |}.
Proof.
  unfold run, generate_completion. intros H.
  apply bind_inv in H as [(w0 & s0 & [= <- <-] & H)|(e & [=] & _)]. cbn [self _llm_engine] in H.
  apply bind_inv in H as [(w0 & [] & [= <-] & H)|(e & [=] & _)].
  cbn [self trace yielded consumer] in H.
  set (s1 := {| _llm_engine := Some eng; _ongoing_request_count := count + 1 |} : Handler).
  change (set_count (fun c0 => c0 + 1)
            {| _llm_engine := Some eng; _ongoing_request_count := count |}) with s1 in H.
  apply bind_inv in H as [(w1 & prompts & H1 & H)|(e & H1 & ->)];
    apply (only_calls_modify_free _ _ _ _ (only_calls_lift _)) in H1 as (S1 & _);
    cbn [self] in S1; [|by rewrite S1].
  apply bind_inv in H as [(w2 & sp & H2 & H)|(e & H2 & ->)];
    apply (only_calls_modify_free _ _ _ _ (only_calls_call _ _)) in H2 as (S2 & _);
    rewrite S1 in S2; [|by rewrite S2].
  apply bind_inv in H as [(w3 & dp & H3 & H)|(e & H3 & ->)];
    apply (only_calls_modify_free _ _ _ _ (only_calls_call _ _)) in H3 as (S3 & _);
    rewrite S2 in S3; [|by rewrite S3].
  apply bind_inv in H as [(w4 & promises & H4 & H)|(e & H4 & ->)];
    apply (only_calls_modify_free _ _ _ _ (invoke_all_only_calls _ _ _ _)) in H4 as (S4 & _);
    rewrite S3 in S4; [|by rewrite S4].
  apply bind_inv in H as [(w5 & generator & H5 & H)|(e & H5 & ->)];
    apply (only_calls_modify_free _ _ _ _ (only_calls_call _ _)) in H5 as (S5 & _);
    rewrite S4 in S5; [|by rewrite S5].
  apply bind_inv in H as [(w6 & chunks & H6 & H)|(e & H6 & ->)];
    apply (only_calls_modify_free _ _ _ _ (only_calls_call _ _)) in H6 as (S6 & _);
    rewrite S5 in S6; [|by rewrite S6].
  apply bind_inv in H as [(w7 & [] & H7 & H)|(e & H7 & ->)];
    apply (keeps_self_async_for _ _ (send_chunk_keeps_self env)) in H7;
    rewrite S6 in H7; [|by rewrite H7].
  injection H as <- <-. cbn [self is_raise]. rewrite H7. unfold s1, set_count; cbn.
  f_equal. lia.
Qed.

(** X6. Completion requests handled one after another on an initialised
    engine: afterwards the counter stands at its initial value plus the
    number of requests that ended with an exception (raised by the
    handler, by a collaborator, or thrown in because the consumer closed
    the generator); the engine handle is unchanged. *)
Theorem completion_counter_drifts (requests : list (@CompletionRequest Fields * option nat))
    (eng : Engine) count (tr : list Ev) (s' : Handler) tr' rs :
  serve (generate_completion env) requests
        {| _llm_engine := Some eng; _ongoing_request_count := count |} tr = (s', tr', rs) ->
  _llm_engine s' = Some eng /\
  _ongoing_request_count s' = count + Z.of_nat (length (List.filter is_raise rs)) /\
  length rs = length requests.
Proof.
  revert count tr s' tr' rs.
  induction requests as [|[request c] rest IH]; intros count tr s' tr' rs; cbn [serve].
  - intros [= <- _ <-]. cbn. split; [done|]. split; [lia|done].
  - destruct (run (generate_completion env request) c _ tr) as [w r] eqn:Hrun.
    apply completion_self_after in Hrun. rewrite Hrun.
    destruct (serve _ rest _ (trace w)) as [[s2 tr2] rs2] eqn:Hrest.
    apply IH in Hrest as (He & Hc & Hl). intros [= <- _ <-].
    split; [done|]. rewrite Hc. cbn [List.filter length].
    destruct r; cbn [is_raise length]; split; lia.
Qed.

Lemma closes_at_mono (c : option nat) (m k : nat) :
  closes_at c k = false -> (m <= k)%nat -> closes_at c m = false.
Proof.
  destruct c as [j|]; cbn; [|done].
  intros H Hle. apply Nat.ltb_ge in H. apply Nat.ltb_ge. lia.
Qed.

(** The streaming loop over chunks that decode, while the consumer is
    still listening: each is decoded and yielded, in order. *)
Lemma send_chunks_prefix (sent : list CompletionChunk) :
  forall (values : list Json) (rest : list CompletionChunk) (w : world Handler Ev Json),
  map (json_loads env) sent = map Ok values ->
  closes_at (consumer w) (length (yielded w) + length values) = false ->
  for_each (sent ++ rest) (send_chunk env) w
  = for_each rest (send_chunk env)
      (World (self w) (trace w ++ map EvJsonLoads sent) (yielded w ++ values) (consumer w)).
Proof.
  induction sent as [|x sent IH]; intros values rest w Hmap Hopen.
  - destruct values; [|discriminate]. cbn. by rewrite !app_nil_r, world_eta.
  - destruct values as [|v values]; [discriminate|]. cbn in Hmap.
    injection Hmap as Hx Hmap. cbn [app for_each].
    unfold bind at 1, send_chunk at 1. unfold bind at 1, call at 1. rewrite Hx.
    unfold yield_ at 1. cbn [self trace yielded consumer].
    rewrite (closes_at_mono _ _ _ Hopen) by (rewrite length_app; cbn; lia).
    rewrite (IH values rest _ Hmap); cbn [self trace yielded consumer].
    + by rewrite <- !app_assoc.
    + rewrite length_app. cbn [length] in *.
      replace (length (yielded w) + 1 + length values)%nat
        with (length (yielded w) + Datatypes.S (length values))%nat by lia.
      done.
Qed.

(** X7. What a completion request yields, and where it stops.  Take the
    iterator that [create_completion_generator] returned in this run, and
    a first part of its chunks that all pass [json.loads] while the
    consumer is still listening.  If these are all the chunks, exactly
    their decoded values are yielded, in order, and the handler ends as
    the iterator ends (normally, or with its exception).  If the next
    chunk does not decode, the decoded values of the first part are
    yielded and the handler fails with the decoder's exception.  If the
    next chunk decodes and the consumer closes on receiving it, that value
    is the last one yielded. *)
Theorem completion_yields_decoded_chunks (request : @CompletionRequest Fields)
    (eng : Engine) count c (tr : list Ev) prompts (sp : SamplingParams)
    (dp : DisaggregatedParams) (w4 : world Handler Ev Json) promises generator
    (chunks : async_iter CompletionChunk) sent rest (values : list Json)
    (w' : world Handler Ev Json) r :
  normalize_prompt (prompt request) = Ok prompts ->
  to_sampling_params env tr request = Ok sp ->
  to_llm_disaggregated_params env (tr ++ [EvToSamplingParams]) request = Ok dp ->
  invoke_all request prompts sp dp
    (World {| _llm_engine := Some eng; _ongoing_request_count := count + 1 |}
           (tr ++ [EvToSamplingParams; EvToLlmDisaggregatedParams]) [] c)
    = (w4, Ok promises) ->
  merge_promises env (trace w4) promises = Ok generator ->
  create_completion_generator env (trace w4 ++ [EvMergePromises promises]) request
    generator (num_choices prompts request) = Ok chunks ->
  items chunks = sent ++ rest ->
  map (json_loads env) sent = map Ok values ->
  closes_at c (length values) = false ->
  run (generate_completion env request) c
      {| _llm_engine := Some eng; _ongoing_request_count := count |} tr = (w', r) ->
  match rest with
  | [] =>
      yielded w' = values /\
      r = match ending chunks with None => Ok tt | Some e => Raise e end
  | next :: _ =>
      match json_loads env next with
      | Raise e => yielded w' = values /\ r = Raise e
      | Ok v =>
          closes_at c (Datatypes.S (length values)) = true ->
          yielded w' = values ++ [v] /\ r = Raise generator_exit
      end
  end.
Proof.
  intros Hnorm Hsp Hdp Hinv Hmerge Hcreate Hsplit Hvalues Hopen.
  pose proof (invoke_all_only_calls _ _ _ _ _ _ _ Hinv) as [calls Hw4].
  cbn [self trace yielded consumer] in Hw4.
  unfold run, generate_completion.
  unfold bind at 1, get_self at 1. cbn [self _llm_engine].
  unfold bind at 1, modify_self at 1. cbn [self trace yielded consumer].
  unfold bind at 1, lift at 1. rewrite Hnorm.
  unfold bind at 1, call at 1. cbn [self trace yielded consumer]. rewrite Hsp.
  unfold bind at 1, call at 1. cbn [self trace yielded consumer]. rewrite Hdp.
  unfold bind at 1.
  replace ((tr ++ [EvToSamplingParams]) ++ [EvToLlmDisaggregatedParams])
    with (tr ++ [EvToSamplingParams; EvToLlmDisaggregatedParams])
    by (by rewrite <- app_assoc).
  change (set_count (fun c0 => c0 + 1)
            {| _llm_engine := Some eng; _ongoing_request_count := count |})
    with ({| _llm_engine := Some eng; _ongoing_request_count := count + 1 |} : Handler).
  rewrite Hinv.
  unfold bind at 1, call at 1. rewrite Hmerge.
  unfold bind at 1, call at 1. cbn [self trace yielded consumer].
  rewrite Hw4 in *. cbn [self trace yielded consumer] in *. rewrite Hcreate.
  unfold bind at 1, async_for. unfold bind at 1. rewrite Hsplit.
  rewrite (send_chunks_prefix sent values rest) by done.
  cbn [self trace yielded consumer app].
  destruct rest as [|next rest'].
  - cbn [for_each]. unfold ret at 1.
    destruct (ending chunks) as [e|].
    + unfold raise. by intros [= <- <-].
    + unfold ret, modify_self. by intros [= <- <-].
  - cbn [for_each]. unfold bind at 1, send_chunk at 1. unfold bind at 1, call at 1.
    destruct (json_loads env next) as [v|e].
    + unfold yield_ at 1. cbn [self trace yielded consumer].
      intros H Hclose. revert H. rewrite length_app. cbn [length].
      replace (length values + 1)%nat with (Datatypes.S (length values)) by lia.
      rewrite Hclose. by intros [= <- <-].
    + by intros [= <- <-].
Qed.



End Facts.


Lemma chat_leaves_handler_alone_on_fault :
  self (fst (run (generate_chat Scenario.env_ok (Scenario.chat true)) None
                 (Scenario.handler Scenario.engine_faulty 3) []))
  = Scenario.handler Scenario.engine_faulty 3.
Proof.
  apply (chat_leaves_handler_alone Scenario.env_ok (Scenario.chat true) None
           (Scenario.handler Scenario.engine_faulty 3) []
           (fst (run (generate_chat Scenario.env_ok (Scenario.chat true)) None
                     (Scenario.handler Scenario.engine_faulty 3) []))
           (snd (run (generate_chat Scenario.env_ok (Scenario.chat true)) None
                     (Scenario.handler Scenario.engine_faulty 3) []))).
  reflexivity.
Defined.

Lemma chat_streamed_forwards_deltas :
  chat_stream (Scenario.chat true) = true /\
  yielded (fst Scenario.chat_streamed) = ["delta-1"; "delta-2"]%string /\
  snd Scenario.chat_streamed = Ok tt.
Proof.
  split; [reflexivity|].
  apply (chat_stream_forwards_responses Scenario.env_ok (Scenario.chat true)
           Scenario.engine_ok 0 []
           (World (Scenario.handler Scenario.engine_ok 0)
              [EvUuid4; EvParseChatMessageContent "hello"%string;
               EvApplyChatTemplate ["hello"%string] None tt; EvToSamplingParams]
              [] None)
           ["hello"%string] "hello"%string 7 (PyStr "hello")
           (AsyncIter ["delta-1"; "delta-2"]%string None)
           (fst Scenario.chat_streamed) (snd Scenario.chat_streamed));
    reflexivity.
Defined.



Lemma three_completions_leave_two :
  _llm_engine (fst (fst Scenario.three_served)) = Some Scenario.engine_ok /\
  _ongoing_request_count (fst (fst Scenario.three_served))
    = 0 + Z.of_nat (length (List.filter is_raise (snd Scenario.three_served))) /\
  length (snd Scenario.three_served) = length Scenario.three_completions.
Proof.
  apply (completion_counter_drifts Scenario.env_ok Scenario.three_completions
           Scenario.engine_ok 0 []
           (fst (fst Scenario.three_served)) (snd (fst Scenario.three_served))
           (snd Scenario.three_served)).
  reflexivity.
Defined.

Lemma two_by_two_yields_chunks :
  closes_at None (length ["chunk-1"; "chunk-2"]%string) = false /\
  yielded (fst Scenario.two_by_two) = ["chunk-1"; "chunk-2"]%string /\
  snd Scenario.two_by_two = Ok tt.
Proof.
  split; [reflexivity|].
  apply (completion_yields_decoded_chunks Scenario.env_ok
           (Scenario.completion Scenario.hello_world (Some 2)) Scenario.engine_ok 0 None []
           [PyStr "hello"; PyStr "world"] 7 9
           (World (Scenario.handler Scenario.engine_ok 1)
              [EvToSamplingParams; EvToLlmDisaggregatedParams;
               EvGenerateAsync (PyStr "hello") 7 true (Some 9);
               EvGenerateAsync (PyStr "world") 7 true (Some 9)] [] None)
           [PyStr "hello"; PyStr "world"] [PyStr "hello"; PyStr "world"]
           (AsyncIter ["chunk-1"; "chunk-2"]%string None)
           ["chunk-1"; "chunk-2"]%string [] ["chunk-1"; "chunk-2"]%string
           (fst Scenario.two_by_two) (snd Scenario.two_by_two));
    reflexivity.
Defined.


End TrtllmMore.

(** ** More about the prefill handler *)

Module PrefillMore.

Import Prefill GenFacts GenMore PrefillFacts.

Section Facts.
Context {SamplingRest NixlMetadata RequestOutput : Type}.

Local Abbreviation Ev := (@event SamplingRest NixlMetadata).
Local Abbreviation Request := (@RemotePrefillRequest SamplingRest).

Variable env : @collaborators SamplingRest NixlMetadata RequestOutput.

(** X9. A raw request that does not decode: the request fails with the
    decoder's exception; the store, the ingestion and the engine are not
    called, nothing is yielded, the loaded set is as before. *)
Theorem undecodable_request_fails_early raw c (s : RequestHandler) (tr : list Ev) e :
  decode env raw = Raise e ->
  run (generate env raw) c s tr = (World s tr [] c, Raise e).
Proof. intros Hdec. unfold run, generate, bind, lift. by rewrite Hdec. Qed.

(** X10. The loaded set only grows, and by nothing but the engine
    identifier of the request at hand. *)
Theorem loaded_set_grows_by_request raw c (s : RequestHandler) (tr : list Ev)
    (w' : world RequestHandler Ev unit) r :
  run (generate env raw) c s tr = (w', r) ->
  _loaded_metadata s ⊆ _loaded_metadata (self w') /\
  forall id, id ∈ _loaded_metadata (self w') ->
    id ∈ _loaded_metadata s \/
    exists decoded, decode env raw = Ok decoded /\ id = engine_id decoded.
Proof.
  intros Hrun. destruct (decode env raw) as [decoded|edec] eqn:Hdec.
  - destruct (generate_run _ _ _ _ _ _ _ _ Hdec Hrun)
      as [(Hin & -> & _)|(_ & [(e & _ & -> & _)|[(md & e & _ & _ & -> & _)|(md & _ & -> & _)]])];
      cbn [self]; try (split; [done|]; intros id Hid; by left).
    split; [cbn; set_solver|].
    intros id Hid. cbn in Hid. apply elem_of_union in Hid as [Hid|Hid]; [|by left].
    right. exists decoded. split; [done|]. set_solver.
  - rewrite (undecodable_request_fails_early _ _ _ _ _ Hdec) in Hrun.
    injection Hrun as <- _. cbn. split; [done|]. intros id Hid. by left.
Qed.


(** X12. Once the store has answered and the ingestion call has returned,
    the identifier is in the loaded set, also when the engine's generation
    raises or the consumer closes the generator. *)
Theorem handshake_is_remembered raw c (s : RequestHandler) (tr : list Ev)
    (decoded : Request) metadata (w' : world RequestHandler Ev unit) r :
  decode env raw = Ok decoded ->
  engine_id decoded ∉ _loaded_metadata s ->
  metadata_store_get env tr (engine_id decoded) = Ok metadata ->
  add_remote_nixl_metadata env (tr ++ [EvStoreGet (engine_id decoded)]) metadata = Ok tt ->
  run (generate env raw) c s tr = (w', r) ->
  engine_id decoded ∈ _loaded_metadata (self w').
Proof.
  intros Hdec Hout Hget Hadd Hrun.
  destruct (generate_run _ _ _ _ _ _ _ _ Hdec Hrun)
    as [(Hin & _)|(_ & [(e & Hget' & _)|[(md & e & Hget' & Hadd' & _)|(md & _ & -> & _)]])].
  - done.
  - congruence.
  - rewrite Hget in Hget'. injection Hget' as <-. congruence.
  - cbn. set_solver.
Qed.

(** A request from a loaded engine is the engine call and the forwarding
    of its outputs, nothing else. *)
Lemma loaded_run_is_generation (env' : @collaborators SamplingRest NixlMetadata RequestOutput)
    raw c (s : RequestHandler) (tr : list Ev) (decoded : Request) :
  decode env' raw = Ok decoded ->
  engine_id decoded ∈ _loaded_metadata s ->
  run (generate env' raw) c s tr
  = bind (call (fun tr0 => engine_generate env' tr0 (request_id decoded)
                             {| tokens := prompt_token_ids decoded |}
                             (sampling_params (overwrite_sampling decoded))
                             {| is_remote_decode := true;
                                decode_block_ids := block_ids decoded;
                                decode_engine_id := engine_id decoded |})
               (generate_event (overwrite_sampling decoded)))
         (fun outputs => async_for outputs (fun _ => yield_ tt))
         (World s tr [] c).
Proof.
  intros Hdec Hin. unfold run, generate.
  unfold bind at 1, lift at 1. rewrite Hdec.
  unfold bind at 1, load_metadata at 1. unfold bind at 1, get_self at 1.
  cbn [self trace yielded consumer engine_id overwrite_sampling set_sampling_params
       request_id prompt_token_ids block_ids sampling_params].
  destruct (decide (engine_id decoded ∈ _loaded_metadata s)) as [_|Hno]; [|done].
  reflexivity.
Qed.

(** X13. For an engine whose identifier is in the loaded set the request
    does not depend on the store or on the ingestion call in any way:
    metadata that changed in the store after the first contact are never
    read again (the source's "currently only loading once"). *)
Theorem loaded_engine_ignores_store raw c (s : RequestHandler) (tr : list Ev)
    get1 add1 get2 add2 :
  (forall decoded : Request,
      decode env raw = Ok decoded -> engine_id decoded ∈ _loaded_metadata s) ->
  run (generate (with_handshake env get1 add1) raw) c s tr
  = run (generate (with_handshake env get2 add2) raw) c s tr.
Proof.
  intros Hloaded. destruct (decode env raw) as [decoded|e] eqn:Hdec.
  - specialize (Hloaded _ eq_refl).
    rewrite !(loaded_run_is_generation _ _ _ _ _ decoded) by done. reflexivity.
  - unfold run, generate, bind, lift. cbn [decode with_handshake]. by rewrite Hdec.
Qed.

Lemma forward_all_drained (outputs : list RequestOutput) (w : world RequestHandler Ev unit) :
  consumer w = None ->
  for_each outputs (fun _ => yield_ tt) w
  = (World (self w) (trace w) (yielded w ++ map (fun _ => tt) outputs) None, Ok tt).
Proof. intros Hc. by apply (yield_all_drained (fun _ : RequestOutput => tt)). Qed.

(** X14. A decodable request from a loaded engine, with a consumer that
    drains the generator: if [engine_client.generate] raises, the request
    fails with that exception and yields nothing; otherwise the handler
    yields one [None] per output of the engine, and ends as the engine's
    iterator ends: normally, or with the iterator's exception unchanged. *)
Theorem prefill_yields_once_per_output raw (s : RequestHandler) (tr : list Ev)
    (decoded : Request) (w' : world RequestHandler Ev unit) r :
  decode env raw = Ok decoded ->
  engine_id decoded ∈ _loaded_metadata s ->
  run (generate env raw) None s tr = (w', r) ->
  match engine_generate env tr (request_id decoded)
          {| tokens := prompt_token_ids decoded |}
          (sampling_params (overwrite_sampling decoded))
          {| is_remote_decode := true; decode_block_ids := block_ids decoded;
             decode_engine_id := engine_id decoded |} with
  | Raise e => r = Raise e /\ yielded w' = []
  | Ok outputs =>
      yielded w' = map (fun _ => tt) (items outputs) /\
      r = match ending outputs with None => Ok tt | Some e => Raise e end
  end.
Proof.
  intros Hdec Hin. unfold run, generate.
  unfold bind at 1, lift at 1. rewrite Hdec.
  unfold bind at 1, load_metadata at 1. unfold bind at 1, get_self at 1.
  cbn [self trace yielded consumer engine_id overwrite_sampling set_sampling_params
       request_id prompt_token_ids block_ids sampling_params].
  destruct (decide (engine_id decoded ∈ _loaded_metadata s)) as [_|Hno]; [|done].
  unfold ret at 1. unfold bind at 1, call at 1. cbn [self trace yielded consumer].
  destruct (engine_generate env tr _ _ _ _) as [outputs|e].
  - unfold async_for, bind. rewrite forward_all_drained by done.
    cbn [self trace yielded consumer app].
    destruct (ending outputs); intros [= <- <-]; done.
  - by intros [= <- <-].
Qed.

Lemma store_gets_other id id' : id' <> id -> store_gets id ([EvStoreGet id'] : list Ev) = 0%nat.
Proof. intros Hne. unfold store_gets. cbn. by apply String.eqb_neq in Hne as ->. Qed.

(** One request when [id] is loaded: it stays loaded and is not looked
    up. *)
Lemma loaded_stays_loaded raw c (s : RequestHandler) (tr : list Ev)
    (w' : world RequestHandler Ev unit) r id :
  id ∈ _loaded_metadata s ->
  run (generate env raw) c s tr = (w', r) ->
  id ∈ _loaded_metadata (self w') /\
  exists new, trace w' = tr ++ new /\ store_gets id new = 0%nat.
Proof.
  intros Hid Hrun. destruct (decode env raw) as [decoded|edec] eqn:Hdec.
  - destruct (generate_run _ _ _ _ _ _ _ _ Hdec Hrun)
      as [(Hin & -> & Htr)|(Hout & [(e & _ & -> & _)|[(md & e & _ & _ & -> & _)|(md & _ & -> & Htr)]])];
      cbn [self trace].
    + split; [done|]. by eexists.
    + split; [done|]. eexists. split; [done|]. apply store_gets_other. congruence.
    + split; [done|]. eexists. split; [done|].
      change [EvStoreGet (engine_id decoded); EvAddRemoteNixlMetadata md]
        with ([EvStoreGet (engine_id decoded)] ++ [EvAddRemoteNixlMetadata md] : list Ev).
      rewrite store_gets_app, store_gets_other by congruence. done.
    + split; [cbn; set_solver|]. eexists. split; [exact Htr|].
      change [EvStoreGet (engine_id decoded); EvAddRemoteNixlMetadata md;
              generate_event (overwrite_sampling decoded)]
        with ([EvStoreGet (engine_id decoded)] ++
              [EvAddRemoteNixlMetadata md; generate_event (overwrite_sampling decoded)]
              : list Ev).
      rewrite store_gets_app, store_gets_other by congruence. done.
  - rewrite (undecodable_request_fails_early _ _ _ _ _ Hdec) in Hrun.
    injection Hrun as <- _. cbn. split; [done|]. exists []. by rewrite app_nil_r.
Qed.

(** X15. Requests handled one after another: an engine identifier that is
    in the loaded set stays there, and however many requests follow, from
    this engine or from others, failing or not, the store is never asked
    for it again. *)
Theorem loaded_engine_never_fetched_again (requests : list (string * option nat))
    (s : RequestHandler) (tr : list Ev) s' tr' rs id :
  id ∈ _loaded_metadata s ->
  serve (generate env) requests s tr = (s', tr', rs) ->
  id ∈ _loaded_metadata s' /\
  exists new, tr' = tr ++ new /\ store_gets id new = 0%nat.
Proof.
  revert s tr s' tr' rs.
  induction requests as [|[raw c] rest IH]; intros s tr s' tr' rs Hid; cbn [serve].
  - intros [= <- <- _]. split; [done|]. exists []. by rewrite app_nil_r.
  - destruct (run (generate env raw) c s tr) as [w r] eqn:Hrun.
    destruct (loaded_stays_loaded _ _ _ _ _ _ _ Hid Hrun) as (Hid1 & n1 & H1 & P1).
    destruct (serve _ rest (self w) (trace w)) as [[s2 tr2] rs2] eqn:Hrest.
    destruct (IH _ _ _ _ _ Hid1 Hrest) as (Hid2 & n2 & H2 & P2).
    intros [= <- <- _]. split; [done|].
    exists (n1 ++ n2). rewrite H2, H1, <- app_assoc, store_gets_app, P1, P2. done.
Qed.


End Facts.


Lemma undecodable_request_fails_early_strict :
  decode Scenario.undecodable_env "not json" = Raise Scenario.decode_error /\
  run (generate Scenario.undecodable_env "not json") None Scenario.fresh_handler []
  = (World Scenario.fresh_handler [] [] None, Raise Scenario.decode_error).
Proof.
  split; [reflexivity|].
  apply (undecodable_request_fails_early Scenario.undecodable_env "not json" None
           Scenario.fresh_handler [] Scenario.decode_error).
  reflexivity.
Defined.

Lemma loaded_set_grows_by_decode_0 :
  _loaded_metadata Scenario.fresh_handler
    ⊆ _loaded_metadata
        (self (fst (Scenario.first_run (Scenario.prefill_env Scenario.published true)))) /\
  forall id,
    id ∈ _loaded_metadata
           (self (fst (Scenario.first_run (Scenario.prefill_env Scenario.published true)))) ->
    id ∈ _loaded_metadata Scenario.fresh_handler \/
    exists decoded,
      decode (Scenario.prefill_env Scenario.published true) "decode-0" = Ok decoded /\
      id = engine_id decoded.
Proof.
  apply (loaded_set_grows_by_request (Scenario.prefill_env Scenario.published true)
           "decode-0" None Scenario.fresh_handler []
           (fst (Scenario.first_run (Scenario.prefill_env Scenario.published true)))
           (snd (Scenario.first_run (Scenario.prefill_env Scenario.published true)))).
  vm_compute; reflexivity.
Defined.


Lemma handshake_remembered_when_generation_fails :
  snd (run (generate Scenario.broken_generation_env "decode-0") None Scenario.fresh_handler [])
    = Raise Scenario.generation_failure /\
  "decode-0" ∈ _loaded_metadata
                 (self (fst (run (generate Scenario.broken_generation_env "decode-0") None
                                 Scenario.fresh_handler []))).
Proof.
  split; [vm_compute; reflexivity|].
  apply (handshake_is_remembered Scenario.broken_generation_env "decode-0" None
           Scenario.fresh_handler [] (Scenario.decoded "decode-0") "addr-0"%string
           (fst (run (generate Scenario.broken_generation_env "decode-0") None
                     Scenario.fresh_handler []))
           (snd (run (generate Scenario.broken_generation_env "decode-0") None
                     Scenario.fresh_handler []))).
  - reflexivity.
  - apply not_elem_of_empty.
  - vm_compute; reflexivity.
  - reflexivity.
  - vm_compute; reflexivity.
Defined.

Lemma loaded_decode_0_ignores_store :
  run (generate (with_handshake (Scenario.prefill_env ∅ true)
                   (store_oracle ∅) (fun _ _ => Raise Scenario.ingestion_failure))
                "decode-0") None Scenario.loaded_handler []
  = run (generate (with_handshake (Scenario.prefill_env ∅ true)
                     (store_oracle Scenario.published) (fun _ _ => Ok tt))
                  "decode-0") None Scenario.loaded_handler [].
Proof.
  apply (loaded_engine_ignores_store (Scenario.prefill_env ∅ true) "decode-0" None
           Scenario.loaded_handler []).
  intros d Hd. injection Hd as <-. apply (bool_decide_unpack _); vm_compute; exact I.
Defined.

Lemma interrupted_generation_yields_three :
  ("decode-0" ∈ _loaded_metadata Scenario.loaded_handler) /\
  yielded (fst (run (generate Scenario.interrupted_env "decode-0") None
                    Scenario.loaded_handler [])) = [tt; tt; tt] /\
  snd (run (generate Scenario.interrupted_env "decode-0") None Scenario.loaded_handler [])
    = Raise Scenario.generation_failure.
Proof.
  split; [apply (bool_decide_unpack _); vm_compute; exact I|].
  apply (prefill_yields_once_per_output Scenario.interrupted_env "decode-0"
           Scenario.loaded_handler [] (Scenario.decoded "decode-0")
           (fst (run (generate Scenario.interrupted_env "decode-0") None
                     Scenario.loaded_handler []))
           (snd (run (generate Scenario.interrupted_env "decode-0") None
                     Scenario.loaded_handler []))).
  - reflexivity.
  - apply (bool_decide_unpack _); vm_compute; exact I.
  - vm_compute; reflexivity.
Defined.

Lemma decode_0_never_fetched_again :
  ("decode-0" ∈ _loaded_metadata Scenario.loaded_handler) /\
  ("decode-0" ∈ _loaded_metadata (fst (fst Scenario.mixed_served))) /\
  exists new, snd (fst Scenario.mixed_served) = [] ++ new /\
              store_gets "decode-0" new = 0%nat.
Proof.
  split; [apply (bool_decide_unpack _); vm_compute; exact I|].
  apply (loaded_engine_never_fetched_again (Scenario.prefill_env ∅ true)
           Scenario.mixed_requests Scenario.loaded_handler []
           (fst (fst Scenario.mixed_served)) (snd (fst Scenario.mixed_served))
           (snd Scenario.mixed_served) "decode-0").
  - apply (bool_decide_unpack _); vm_compute; exact I.
  - vm_compute; reflexivity.
Defined.


End PrefillMore.

(** ** The engine arguments of the prefill worker *)

Module MainFacts.

Import Prefill.

Section Facts.
Context {OtherArgs : Type}.

Local Abbreviation Args := (@AsyncEngineArgs OtherArgs).

(** X17. Whatever arguments were parsed, the worker is started with
    chunked prefill off, pipeline parallel size 1, async output processing
    disabled and eager mode on; all other arguments are passed on as
    parsed, and one line is printed for each of the four settings that had
    to be changed. *)
Theorem main_forces_supported_settings (engine_args : Args) :
  supported (snd (main_engine_args engine_args)) /\
  other_args (snd (main_engine_args engine_args)) = other_args engine_args /\
  length (fst (main_engine_args engine_args)) = unsupported_settings engine_args.
Proof.
  destruct engine_args as [cp pps ao ee o].
  unfold main_engine_args, supported, unsupported_settings.
  cbn [enable_chunked_prefill pipeline_parallel_size disable_async_output_proc
       enforce_eager other_args].
  destruct (pps =? 1) eqn:Hpps;
    [apply Z.eqb_eq in Hpps; subst pps|];
    destruct cp as [[|]|], ao as [[|]|], ee as [[|]|]; cbn; rewrite ?Hpps; cbn;
    repeat split.
Qed.

(** X18. Running the block on its own result changes nothing and prints
    nothing; and the block prints nothing exactly when the parsed arguments
    already have the four supported settings, in which case it leaves them
    as they are. *)
Theorem main_is_idempotent_and_silent_when_supported (engine_args : Args) :
  main_engine_args (snd (main_engine_args engine_args))
    = ([], snd (main_engine_args engine_args)) /\
  (fst (main_engine_args engine_args) = [] <-> supported engine_args) /\
  (supported engine_args -> main_engine_args engine_args = ([], engine_args)).
Proof.
  assert (Hsup : forall a : Args, supported a -> main_engine_args a = ([], a)).
  { intros [cp pps ao ee o] (H1 & H2 & H3 & H4). cbn in H1, H2, H3, H4. subst.
    reflexivity. }
  split; [|split; [split|]].
  - apply Hsup. apply main_forces_supported_settings.
  - intros Hnil.
    pose proof (main_forces_supported_settings engine_args) as (_ & _ & Hlen).
    rewrite Hnil in Hlen. cbn in Hlen.
    destruct engine_args as [cp pps ao ee o].
    unfold unsupported_settings, supported in *.
    cbn [enable_chunked_prefill pipeline_parallel_size disable_async_output_proc
         enforce_eager] in *.
    destruct cp as [[|]|], ao as [[|]|], ee as [[|]|]; cbn in Hlen; try lia;
      destruct (pps =? 1) eqn:Hpps; cbn in Hlen; try lia.
    apply Z.eqb_eq in Hpps. by subst.
  - intros H. by rewrite (Hsup _ H).
  - apply Hsup.
Qed.

End Facts.

End MainFacts.
